(** * QuackTokenScope: the SentencePiece tokenizer variant and the cost
      calculator command

    A shallow embedding of
    - [src/quacktokenscope/utils/tokenizers/sentencepiece_tokenizer.py]
      (class [SentencePieceTokenizer]) and
    - [src/quacktokenscope/education/cli/calculate_cost.py]
      (function [handle_calculate_cost_command]),
    together with the properties the specification states about them.

    Python objects are records, a method that mutates [self] is a computation
    in a state-and-exception monad, and every collaborator that lives outside
    the repository (transformers, sentencepiece, the quackcore file service,
    the operating system) is an explicit environment whose answers are
    arbitrary. *)

From Stdlib Require Import ZArith QArith Lqa List String Bool Lia.
From Stdlib Require Import Permutation Sorted.
From stdpp Require Import base option gmap strings.
Import ListNotations.

Open Scope string_scope.
Open Scope Z_scope.

(** ** Python values, exceptions and outcomes *)

Module Py.

(** Errors raised by a collaborator outside the repository.  Only the
    distinction the source makes in its [except] clauses is kept. *)
Inductive lib_error : Type :=
| LibImportError
| LibError (descr : string).

(** Exceptions that can be in flight while the modelled code runs.  All of
    them are subclasses of [Exception]; [KeyboardInterrupt] and
    [SystemExit] are outside the model.  [RuntimeError] is only ever raised
    by the source itself, [AttributeError] by a failed attribute lookup and
    [UnknownModelError] and [UnknownTokenizerError] by the look-ups of the
    cost model and of the scenario explorer. *)
Inductive exc : Type :=
| RuntimeError (msg : string)
| AttributeError (attr : string)
| UnknownModelError (model : string)
| UnknownTokenizerError (tokenizer : string)
| FromLibrary (e : lib_error).

Definition is_ImportError (e : exc) : bool :=
  match e with
  | FromLibrary LibImportError => true
  | _ => false
  end.

(** The result of evaluating an expression: a value or an exception. *)
Inductive outcome (A : Type) : Type :=
| Return (a : A)
| Raise (e : exc).
Arguments Return {A} a.
Arguments Raise {A} e.

(** What a call into a library answers. *)
Inductive answer (A : Type) : Type :=
| Gives (a : A)
| Throws (e : lib_error).
Arguments Gives {A} a.
Arguments Throws {A} e.

Definition call {A} (r : answer A) : outcome A :=
  match r with
  | Gives a => Return a
  | Throws e => Raise (FromLibrary e)
  end.

Definition obind {A B} (c : outcome A) (k : A -> outcome B) : outcome B :=
  match c with
  | Return a => k a
  | Raise e => Raise e
  end.

Definition returns {A} (c : outcome A) : bool :=
  match c with
  | Return _ => true
  | Raise _ => false
  end.

(** [getattr o name] for an attribute that may be missing. *)
Definition getattr {A} (name : string) (slot : option A) : outcome A :=
  match slot with
  | Some a => Return a
  | None => Raise (AttributeError name)
  end.

End Py.
Export Py.

Declare Scope outcome_scope.
Delimit Scope outcome_scope with outcome.
Notation "x <~ c ; k" := (obind c (fun x => k))
  (at level 100, c at next level, right associativity) : outcome_scope.

(** ** The tokenizer objects the variant holds in [self._tokenizer] *)

(** Keyword arguments the source passes to [encode]. *)
Inductive encode_kw : Type :=
| add_special_tokens (b : bool)
| out_type_int.

(** The attribute named [encode]: one attribute, called with
    [add_special_tokens=False] or [out_type=int] for ids and with
    [out_type=str] for pieces. *)
Record encode_method : Type := {
  encode_ids : string -> encode_kw -> answer (list Z);
  encode_pieces : string -> answer (list string)
}.

(** Keyword arguments the source passes to [decode]. *)
Inductive decode_kw : Type :=
| skip_special_tokens (b : bool)
| no_kw.

(** A tokenizer object as the source sees it through duck typing: each
    attribute it asks for with [hasattr] or calls is present or not. *)
Record TokObj : Type := {
  attr_encode : option encode_method;
  attr_convert_ids_to_tokens : option (list Z -> answer (list string));
  attr_decode : option (list Z -> decode_kw -> answer string);
  attr_vocab_size : option Z;
  attr_get_piece_size : option (unit -> answer Z)
}.

Definition is_Some_b {A} (o : option A) : bool :=
  match o with Some _ => true | None => false end.

(** [self._tokenizer] is [None] or an object; [None] has none of the
    attributes. *)
Definition attr {A} (field : TokObj -> option A) (o : option TokObj) : option A :=
  match o with
  | Some t => field t
  | None => None
  end.

Definition hasattr {A} (o : option TokObj) (field : TokObj -> option A) : bool :=
  is_Some_b (attr field o).

(** ** The instance state of [SentencePieceTokenizer] *)

Record SentencePieceTokenizer : Type := {
  _tokenizer : option TokObj;
  _temp_dir : option string;
  _initialized : bool
}.

Definition name : string := "sentencepiece".
Definition description : string := "Google's SentencePiece tokenizer".
Definition model_name : string := "t5-base".
Definition guild : string := "Statistical Fragmentation".

(** [__init__]: [self._tokenizer = None], [self._temp_dir = None]; the flag
    [_initialized] is set by [BaseTokenizer.__init__], which is not part of
    the sources at hand: a fresh variant is Uninitialized (spec, section 3). *)
Definition __init__ : SentencePieceTokenizer :=
  {| _tokenizer := None; _temp_dir := None; _initialized := false |}.

Definition not_initialized : exc := RuntimeError "Tokenizer not initialized".

(** ** [tokenize], [decode], [get_vocab_size] (lines 122-182)

    None of the three assigns to [self], so they are functions of the
    instance state. *)

Definition tokenize (self : SentencePieceTokenizer) (text : string)
  : outcome (list Z * list string) :=
  if negb (_initialized self) then Raise not_initialized
  else if hasattr (_tokenizer self) attr_encode then
    (* T5Tokenizer *)
    (enc <~ getattr "encode" (attr attr_encode (_tokenizer self));
     token_ids <~ call (encode_ids enc text (add_special_tokens false));
     conv <~ getattr "convert_ids_to_tokens"
               (attr attr_convert_ids_to_tokens (_tokenizer self));
     token_strs <~ call (conv token_ids);
     Return (token_ids, token_strs))%outcome
  else
    (* Direct SentencePiece *)
    (enc <~ getattr "encode" (attr attr_encode (_tokenizer self));
     token_ids <~ call (encode_ids enc text out_type_int);
     enc' <~ getattr "encode" (attr attr_encode (_tokenizer self));
     token_strs <~ call (encode_pieces enc' text);
     Return (token_ids, token_strs))%outcome.

Definition decode (self : SentencePieceTokenizer) (token_ids : list Z)
  : outcome string :=
  if negb (_initialized self) then Raise not_initialized
  else if hasattr (_tokenizer self) attr_decode then
    (* T5Tokenizer *)
    (dec <~ getattr "decode" (attr attr_decode (_tokenizer self));
     call (dec token_ids (skip_special_tokens true)))%outcome
  else
    (* Direct SentencePiece *)
    (dec <~ getattr "decode" (attr attr_decode (_tokenizer self));
     call (dec token_ids no_kw))%outcome.

Definition get_vocab_size (self : SentencePieceTokenizer) : outcome Z :=
  if negb (_initialized self) then Raise not_initialized
  else if hasattr (_tokenizer self) attr_vocab_size then
    (* T5Tokenizer *)
    getattr "vocab_size" (attr attr_vocab_size (_tokenizer self))
  else
    (* Direct SentencePiece *)
    (size <~ getattr "get_piece_size" (attr attr_get_piece_size (_tokenizer self));
     call (size tt))%outcome.

(** ** The environment of [initialize]

    The file store ([quackcore.fs]), [transformers] and [sentencepiece] are
    collaborators outside the repository.  The files they leave behind are
    state that outlives a call; everything else they answer is given by an
    [Env], one per call of [initialize], with no constraint on it. *)

(** A node of the file store. *)
Inductive node : Type :=
| Directory
| File (content : string).

(** What can go wrong with one request to the file store: it answers with a
    result whose [success] is false, or it raises. *)
Inductive fault : Type :=
| NoFault
| FailResult (error : string)
| Raises (e : lib_error).

(** The arguments of the training command line (lines 100-106). *)
Record train_args : Type := {
  input : string;
  model_prefix : string;
  vocab_size : Z;
  character_coverage : Q;
  model_type : string
}.

Record Env : Type := {
  (* from transformers import T5Tokenizer; T5Tokenizer.from_pretrained(name) *)
  T5Tokenizer_from_pretrained : string -> answer TokObj;
  (* import sentencepiece as spm *)
  import_sentencepiece : answer unit;
  (* what the trainer writes into <model_prefix>.model for a corpus *)
  SentencePieceTrainer : string -> train_args -> answer string;
  (* what it writes into <model_prefix>.vocab next to the model *)
  SentencePieceTrainer_vocab : string -> train_args -> string;
  (* the processor object, by the model bytes loaded into it *)
  SentencePieceProcessor : option string -> TokObj;
  (* whether load accepts the bytes of a model file *)
  SentencePieceProcessor_load : string -> answer unit;
  fault_create_directory : fault;
  fault_get_file_info : fault;
  fault_create_temp_directory : fault;
  fresh_temp_directory : string -> string;
  fault_write_text : fault
}.

(** What [initialize] asks of its collaborators, in the order it asks. *)
Inductive request : Type :=
| from_pretrained
| import_spm
| create_directory
| get_file_info
| create_temp_directory
| write_text
| train
| load.

Inductive reply : Type :=
| Succeeded       (* returned; for a file-store result, success is true *)
| Absent          (* get_file_info returned success with exists false *)
| Failed          (* a file-store result with success false *)
| Raised.

Inductive level : Type := INFO | WARNING | ERROR.

(** The messages of the [self.logger] calls of [initialize]. *)
Inductive message : Type :=
| Initialized_using_T5Tokenizer
| Failed_to_initialize_T5Tokenizer (e : exc)
| Falling_back_to_direct_SentencePiece
| Failed_to_create_models_directory (err : string)
| No_SentencePiece_model_found
| Failed_to_create_temporary_directory (err : string)
| Failed_to_write_training_file (err : string)
| Initialized_using_direct_SentencePiece
| Failed_to_import_sentencepiece
| Failed_to_initialize_SentencePiece (e : exc).

Inductive event : Type :=
| Asked (r : request) (a : reply)
| Logged (l : level) (m : message).

(** The state a call runs in: the instance, the file store and the history
    of requests and log lines (most recent last). *)
Record state : Type := {
  self : SentencePieceTokenizer;
  files : gmap string node;
  history : list event
}.

(** *** A state-and-exception monad

    An exception keeps the assignments made before it was raised. *)
Definition M (A : Type) : Type := state -> outcome A * state.

Definition ret {A} (a : A) : M A := fun s => (Return a, s).

Definition raise {A} (e : exc) : M A := fun s => (Raise e, s).

Definition bind {A B} (c : M A) (k : A -> M B) : M B :=
  fun s =>
    match c s with
    | (Return a, s') => k a s'
    | (Raise e, s') => (Raise e, s')
    end.

(** [try: body except Exception as e: handler e] *)
Definition try_except {A} (body : M A) (handler : exc -> M A) : M A :=
  fun s =>
    match body s with
    | (Return a, s') => (Return a, s')
    | (Raise e, s') => handler e s'
    end.

Declare Scope py_scope.
Delimit Scope py_scope with py.
Notation "x <- c ;; k" := (bind c (fun x => k))
  (at level 100, c at next level, right associativity) : py_scope.
Notation "c ;; k" := (bind c (fun _ => k))
  (at level 100, right associativity) : py_scope.

(** *** Assignments to [self] and the logger *)

Definition set__tokenizer (t : option TokObj) : M unit :=
  fun s =>
    (Return tt,
     {| self := {| _tokenizer := t;
                   _temp_dir := _temp_dir (self s);
                   _initialized := _initialized (self s) |};
        files := files s; history := history s |}).

Definition set__temp_dir (d : option string) : M unit :=
  fun s =>
    (Return tt,
     {| self := {| _tokenizer := _tokenizer (self s);
                   _temp_dir := d;
                   _initialized := _initialized (self s) |};
        files := files s; history := history s |}).

Definition set__initialized (b : bool) : M unit :=
  fun s =>
    (Return tt,
     {| self := {| _tokenizer := _tokenizer (self s);
                   _temp_dir := _temp_dir (self s);
                   _initialized := b |};
        files := files s; history := history s |}).

Definition record (e : event) : M unit :=
  fun s =>
    (Return tt,
     {| self := self s; files := files s; history := history s ++ [e] |}).

Definition logger (l : level) (m : message) : M unit := record (Logged l m).

Definition get_files : M (gmap string node) := fun s => (Return (files s), s).

Definition put_file (p : string) (n : node) : M unit :=
  fun s =>
    (Return tt,
     {| self := self s; files := <[p := n]> (files s); history := history s |}).

(** A request that only answers: record how it went, then return or raise. *)
Definition ask {A} (r : request) (a : answer A) : M A :=
  match a with
  | Gives x => (record (Asked r Succeeded) ;; ret x)%py
  | Throws e => (record (Asked r Raised) ;; raise (FromLibrary e))%py
  end.

(** *** The file service, [quackcore.fs] *)

(** The result objects of the file service, reduced to the fields read. *)
Record DataResult : Type := {
  success : bool;
  path : string;
  error : string
}.

Record FileInfoResult : Type := {
  info_success : bool;
  info_exists : bool
}.

Definition fs_join_path (a b : string) : string := a +:+ "/" +:+ b.

Definition fs_create_directory (env : Env) (p : string) : M DataResult :=
  match fault_create_directory env with
  | NoFault =>
      (fs <- get_files ;;
       match fs !! p with
       | Some (File _) =>
           record (Asked create_directory Failed) ;;
           ret {| success := false; path := p; error := "not a directory" |}
       | Some Directory =>
           record (Asked create_directory Succeeded) ;;
           ret {| success := true; path := p; error := "" |}
       | None =>
           put_file p Directory ;;
           record (Asked create_directory Succeeded) ;;
           ret {| success := true; path := p; error := "" |}
       end)%py
  | FailResult err =>
      (record (Asked create_directory Failed) ;;
       ret {| success := false; path := p; error := err |})%py
  | Raises e =>
      (record (Asked create_directory Raised) ;; raise (FromLibrary e))%py
  end.

Definition fs_get_file_info (env : Env) (p : string) : M FileInfoResult :=
  match fault_get_file_info env with
  | NoFault =>
      (fs <- get_files ;;
       match fs !! p with
       | Some _ =>
           record (Asked get_file_info Succeeded) ;;
           ret {| info_success := true; info_exists := true |}
       | None =>
           record (Asked get_file_info Absent) ;;
           ret {| info_success := true; info_exists := false |}
       end)%py
  | FailResult _ =>
      (record (Asked get_file_info Failed) ;;
       ret {| info_success := false; info_exists := false |})%py
  | Raises e =>
      (record (Asked get_file_info Raised) ;; raise (FromLibrary e))%py
  end.

Definition fs_create_temp_directory (env : Env) (prefix : string) : M DataResult :=
  match fault_create_temp_directory env with
  | NoFault =>
      (put_file (fresh_temp_directory env prefix) Directory ;;
       record (Asked create_temp_directory Succeeded) ;;
       ret {| success := true; path := fresh_temp_directory env prefix;
              error := "" |})%py
  | FailResult err =>
      (record (Asked create_temp_directory Failed) ;;
       ret {| success := false; path := ""; error := err |})%py
  | Raises e =>
      (record (Asked create_temp_directory Raised) ;; raise (FromLibrary e))%py
  end.

Definition fs_write_text (env : Env) (p content : string) : M DataResult :=
  match fault_write_text env with
  | NoFault =>
      (put_file p (File content) ;;
       record (Asked write_text Succeeded) ;;
       ret {| success := true; path := p; error := "" |})%py
  | FailResult err =>
      (record (Asked write_text Failed) ;;
       ret {| success := false; path := p; error := err |})%py
  | Raises e =>
      (record (Asked write_text Raised) ;; raise (FromLibrary e))%py
  end.

(** *** [sentencepiece] *)

(** [spm.SentencePieceTrainer.train(...)]: reads the corpus at [input] and
    writes [<model_prefix>.model] and [<model_prefix>.vocab]. *)
Definition spm_train (env : Env) (args : train_args) : M unit :=
  (fs <- get_files ;;
   match fs !! input args with
   | Some (File corpus) =>
       match SentencePieceTrainer env corpus args with
       | Gives model =>
           put_file (model_prefix args +:+ ".model") (File model) ;;
           put_file (model_prefix args +:+ ".vocab")
             (File (SentencePieceTrainer_vocab env corpus args)) ;;
           record (Asked train Succeeded)
       | Throws e => record (Asked train Raised) ;; raise (FromLibrary e)
       end
   | _ =>
       record (Asked train Raised) ;;
       raise (FromLibrary (LibError "training input not found"))
   end)%py.

(** [self._tokenizer.load(path)] on the processor [self._tokenizer] was just
    bound to: the object is changed in place. *)
Definition spm_load (env : Env) (p : string) : M unit :=
  (fs <- get_files ;;
   match fs !! p with
   | Some (File model) =>
       match SentencePieceProcessor_load env model with
       | Gives _ =>
           set__tokenizer (Some (SentencePieceProcessor env (Some model))) ;;
           record (Asked load Succeeded)
       | Throws e => record (Asked load Raised) ;; raise (FromLibrary e)
       end
   | _ =>
       record (Asked load Raised) ;;
       raise (FromLibrary (LibError "model file not found"))
   end)%py.

(** ** [initialize] (lines 40-120) *)

Definition newline : string := String (Ascii.ascii_of_nat 10) "".

Definition sample_text : string :=
  "This is a sample text for SentencePiece training." +:+ newline +:+
  "It contains some words and sentences to build a small model." +:+ newline +:+
  "The model will be very limited but sufficient for demonstration." +:+ newline.

Definition initialize (env : Env) : M bool :=
 (try_except
    (try_except
       (* First try to use transformers with T5 model *)
       (t <- ask from_pretrained (T5Tokenizer_from_pretrained env model_name) ;;
        set__tokenizer (Some t) ;;
        set__initialized true ;;
        logger INFO Initialized_using_T5Tokenizer ;;
        ret true)
       (fun e =>
        logger WARNING (Failed_to_initialize_T5Tokenizer e) ;;
        logger INFO Falling_back_to_direct_SentencePiece ;;
        (* Fall back to direct SentencePiece implementation *)
        ask import_spm (import_sentencepiece env) ;;
        models_dir_result <- fs_create_directory env "./models" ;;
        if negb (success models_dir_result) then
          logger ERROR (Failed_to_create_models_directory (error models_dir_result)) ;;
          ret false
        else
          let models_dir := path models_dir_result in
          let model_path := fs_join_path models_dir "sentencepiece.model" in
          (* Load the model (lines 108-113) *)
          let load_the_model : M bool :=
            (set__tokenizer (Some (SentencePieceProcessor env None)) ;;
             spm_load env model_path ;;
             set__initialized true ;;
             logger INFO Initialized_using_direct_SentencePiece ;;
             ret true) in
          model_info <- fs_get_file_info env model_path ;;
          if negb (info_success model_info && info_exists model_info) then
            logger INFO No_SentencePiece_model_found ;;
            temp_dir_result <- fs_create_temp_directory env "quacktokenscope_spm_" ;;
            if negb (success temp_dir_result) then
              logger ERROR (Failed_to_create_temporary_directory (error temp_dir_result)) ;;
              ret false
            else
              set__temp_dir (Some (path temp_dir_result)) ;;
              let train_path := fs_join_path (path temp_dir_result) "train.txt" in
              write_result <- fs_write_text env train_path sample_text ;;
              if negb (success write_result) then
                logger ERROR (Failed_to_write_training_file (error write_result)) ;;
                ret false
              else
                spm_train env {| input := train_path;
                                 model_prefix := models_dir +:+ "/sentencepiece";
                                 vocab_size := 100;
                                 character_coverage := 1;
                                 model_type := "unigram" |} ;;
                load_the_model
          else
            load_the_model))
    (fun e =>
       if is_ImportError e then
         logger ERROR Failed_to_import_sentencepiece ;;
         ret false
       else
         logger ERROR (Failed_to_initialize_SentencePiece e) ;;
         ret false))%py.

(** ** Observing calls of [initialize] *)

(** Successive calls of [initialize] on one instance.  Between two calls
    anything may have happened to the file store, and each call has an
    environment of its own.  The flag tells whether one of the calls so far
    has returned [True]. *)
Inductive lifecycle : SentencePieceTokenizer -> bool -> Prop :=
| constructed : lifecycle __init__ false
| initialize_called t won env fs h b s' :
    lifecycle t won ->
    initialize env {| self := t; files := fs; history := h |} = (Return b, s') ->
    lifecycle (self s') (won || b).

(** The events a call adds to the history. *)
Definition events_of (env : Env) (s : state) : list event :=
  drop (length (history s)) (history (snd (initialize env s))).

(** The requests that belong to an initialization strategy: the pretrained
    wrapper, the look-up of the local artifact, training, and loading. *)
Definition strategic (e : event) : bool :=
  match e with
  | Asked from_pretrained _ | Asked get_file_info _
  | Asked train _ | Asked load _ => true
  | _ => false
  end.

Definition gave (a : reply) : bool :=
  match a with Succeeded => true | _ => false end.

(** The request [r] was made during the events [ev], however it went. *)
Definition asked (r : request) (ev : list event) : Prop :=
  exists a, In (Asked r a) ev.


(** The courses a call of [initialize] can take, with its return value:
    the strategic requests in the order they were made and how each went. *)
Inductive course : list event -> bool -> Prop :=
| pretrained_wrapper :
    course [Asked from_pretrained Succeeded] true
| fallback_unavailable :
    (* sentencepiece cannot be imported or the models directory fails *)
    course [Asked from_pretrained Raised] false
| artifact_lookup_raises :
    course [Asked from_pretrained Raised; Asked get_file_info Raised] false
| local_artifact a :
    course [Asked from_pretrained Raised; Asked get_file_info Succeeded;
            Asked load a] (gave a)
| training_not_reached a :
    (* no artifact; the temporary directory or the training file fails *)
    a = Absent \/ a = Failed ->
    course [Asked from_pretrained Raised; Asked get_file_info a] false
| training_raises a :
    a = Absent \/ a = Failed ->
    course [Asked from_pretrained Raised; Asked get_file_info a;
            Asked train Raised] false
| trained_artifact a b :
    a = Absent \/ a = Failed ->
    course [Asked from_pretrained Raised; Asked get_file_info a;
            Asked train Succeeded; Asked load b] (gave b).

(** The requests to the file store whose failure the source checks. *)
Definition file_store_request (r : request) : bool :=
  match r with
  | create_directory | create_temp_directory | write_text => true
  | _ => false
  end.

Definition failed (a : reply) : bool :=
  match a with Failed | Raised => true | _ => false end.

(** [decode(tokenize(text).ids)] *)
Definition decode_tokenize (self : SentencePieceTokenizer) (text : string)
  : outcome string :=
  (r <~ tokenize self text; decode self (fst r))%outcome.

(** ** The cost model *)

(** Modelled from the spec: [quacktokenscope/education/cost_calculator.py]
    (the pricing table, [compute_cost], [compare_models]) is not among the
    sources.  Section 3 and 4.3 of the specification: a pricing entry holds
    an input and an output rate per 1000 tokens; costs are
    [tokens / 1000 * rate]; the total is their sum.  Python's numbers (token
    counts and amounts alike) are exact rationals here. *)
Record PricingEntry : Type := {
  input_rate : Q;
  output_rate : Q
}.

(** The pricing table, a dict in insertion order: model name to rates. *)
Definition pricing_table : Type := list (string * PricingEntry).

Record CostBreakdown : Type := {
  input_cost : Q;
  output_cost : Q;
  total_cost : Q
}.


Definition breakdown (e : PricingEntry) (input_tokens output_tokens : Q) : CostBreakdown :=
  let ic := (input_tokens / 1000 * input_rate e)%Q in
  let oc := (output_tokens / 1000 * output_rate e)%Q in
  {| input_cost := ic; output_cost := oc; total_cost := (ic + oc)%Q |}.


(** Modelled from the spec: [compare_models(input_tokens, output_tokens)]
    (section 4.3), a mapping from every model of the table to its cost
    breakdown, in the table's order. *)
Definition compare_models (table : pricing_table) (input_tokens output_tokens : Q)
  : list (string * CostBreakdown) :=
  map (fun me => (fst me, breakdown (snd me) input_tokens output_tokens)) table.


(** ** Python's [sorted(iterable, key=...)]

    The sort is stable and compares keys with [<] only; a stable sort has one
    result, computed here by insertion. *)
Section Sorted.
Context {A : Type} (key : A -> Q).

Definition key_lt (x y : A) : bool := negb (Qle_bool (key y) (key x)).

Fixpoint insert_by (x : A) (l : list A) : list A :=
  match l with
  | [] => [x]
  | y :: l' => if key_lt y x then y :: insert_by x l' else x :: y :: l'
  end.

Fixpoint sorted (l : list A) : list A :=
  match l with
  | [] => []
  | x :: l' => insert_by x (sorted l')
  end.


End Sorted.

(** The key of the comparison table (lines 114-115):
    [lambda x: x[1]["total_cost"]]. *)
Definition by_total_cost (x : string * CostBreakdown) : Q := total_cost (snd x).

(** ** The cost calculator command *)

(** A tokenizer held in [plugin._tokenizers], seen through the method the
    command calls on it. *)
Record TokenizerInstance : Type := {
  inst_tokenize : string -> outcome (list Z * list string)
}.

Definition instance_of (t : SentencePieceTokenizer) : TokenizerInstance :=
  {| inst_tokenize := tokenize t |}.

(** [len(tokenizer_instance.tokenize(text)[0])] *)
Definition count_tokens (t : TokenizerInstance) (text : string) : outcome Q :=
  (r <~ inst_tokenize t text; Return (inject_Z (Z.of_nat (length (fst r)))))%outcome.

(** *** The scenario explorer *)

(** Modelled from the spec: [quacktokenscope/education/challenges/what_if.py]
    is not among the sources.  Section 3: a scenario is a label, the
    parameter that was varied and the resulting cost breakdown.  What
    [run_what_if_analysis] computes is not modelled: its answer is given by
    the surroundings of the command. *)
Inductive varied_parameter : Type :=
| output_multiplier (k : Q)
| alternate_model (model : string)
| alternate_tokenizer (tokenizer : string).

Record Scenario : Type := {
  label : string;
  varied : varied_parameter;
  cost : CostBreakdown
}.

(** *** [handle_calculate_cost_command] (lines 30-123) *)

(** What the command puts on the terminal.  The panels and tables are kept as
    the data they are built from: [display_cost_summary] and
    [display_what_if_results] are not among the sources, and the rows of the
    comparison table carry the amounts, not their six-digit rendering. *)
Inductive renderable : Type :=
| cost_summary (input_text : string) (input_tokens : Q) (output_tokens : Z)
    (model : string)
| what_if_results (analysis : list Scenario)
| model_cost_comparison (rows : list (string * CostBreakdown)).

(** The messages of the command's [print_info] and [print_error] calls. *)
Inductive cli_message : Type :=
| Read_input_from_file (input_path : string)
| Failed_to_read_file (e : lib_error)
| Failed_to_initialize_tokenscope_plugin (err : string)
| Tokenizer_not_found (tokenizer : string) (available : list string).

Inductive output : Type :=
| print_info (msg : cli_message)
| print_error (msg : cli_message) (exit_code : Z)
| console_print (r : renderable).

(** The surroundings of the command.  None of what the command calls is
    among the sources, so each call has an answer that is given here, with
    no constraint on it: the operating system for the path and the file,
    [quackcore.cli.print_error], the plugin, the cost calculator, the
    scenario explorer and the console. *)
Record Cli : Type := {
  (* Path(input_text).exists() and Path(input_text).is_file() *)
  Path_exists : string -> answer bool;
  Path_is_file : string -> answer bool;
  (* open(input_path, "r", encoding="utf-8") and f.read() *)
  open_read : string -> answer string;
  (* whether print_info raises on a message *)
  print_info_fault : cli_message -> option lib_error;
  (* whether print_error(message, exit_code=1) returns to its caller; if it
     does not, it ends the process with the exit code *)
  print_error_returns : bool;
  (* TokenScopePlugin() *)
  TokenScopePlugin : outcome unit;
  (* plugin.initialize() *)
  plugin_initialize : outcome DataResult;
  (* plugin._tokenizers, a dict in insertion order *)
  plugin__tokenizers : list (string * TokenizerInstance);
  (* display_cost_summary(input_text, input_tokens, output_tokens, model,
     console): whether it builds the panel *)
  display_cost_summary : string -> Q -> Z -> string -> outcome unit;
  (* run_what_if_analysis(input_text, tokenizer_instance, model) *)
  run_what_if_analysis :
    string -> TokenizerInstance -> string -> outcome (list Scenario);
  (* display_what_if_results(analysis, console) *)
  display_what_if_results : list Scenario -> outcome unit;
  (* compare_models(input_tokens, output_tokens) of the cost calculator, a
     dict in insertion order *)
  cost_calculator_compare_models :
    Q -> Z -> outcome (list (string * CostBreakdown));
  (* whether console.print raises on a renderable *)
  console_print_fault : renderable -> option lib_error
}.

(** How a run of the command ends: the handler returns, the process exits
    with a code, or an exception escapes from the handler. *)
Inductive ending : Type :=
| Returned
| Exited (code : Z)
| Escaped (e : exc).

(** The run of a command: what was printed, in order, and how it ended. *)
Definition run : Type := list output * ending.

Definition printed (o : list output) (r : run) : run := ((o ++ fst r)%list, snd r).

Definition stop (e : ending) : run := ([], e).

(** [print_error(message, exit_code=1)] followed by [return]. *)
Definition error_exit (cli : Cli) (msg : cli_message) : run :=
  ([print_error msg 1], if print_error_returns cli then Returned else Exited 1).

(** [console.print(r)] for a renderable whose construction went as [built];
    then the rest of the command. *)
Definition console_print_of (cli : Cli) (built : outcome unit) (r : renderable)
    (rest : run) : run :=
  match built with
  | Raise e => stop (Escaped e)
  | Return _ =>
      match console_print_fault cli r with
      | Some e => stop (Escaped (FromLibrary e))
      | None => printed [console_print r] rest
      end
  end.

(** [key in d] and [d[key]] on a dict in insertion order. *)
Fixpoint dict_get {A : Type} (key : string) (d : list (string * A)) : option A :=
  match d with
  | [] => None
  | (k, v) :: rest => if String.eqb k key then Some v else dict_get key rest
  end.

(** Lines 64-123: everything after the input text has been settled. *)
Definition calculate_cost (cli : Cli) (input_text model : string)
    (output_tokens : Z) (tokenizer : string)
    (what_if compare_models_flag : bool) : run :=
  (* Create and initialize the token scope plugin to get tokenizers *)
  match TokenScopePlugin cli with
  | Raise e => stop (Escaped e)
  | Return _ =>
  match plugin_initialize cli with
  | Raise e => stop (Escaped e)
  | Return init_result =>
  if negb (success init_result) then
    error_exit cli (Failed_to_initialize_tokenscope_plugin (error init_result))
  else
    (* Get available tokenizers *)
    let available_tokenizers := plugin__tokenizers cli in
    match dict_get tokenizer available_tokenizers with
    | None =>
        error_exit cli
          (Tokenizer_not_found tokenizer (map fst available_tokenizers))
    | Some tokenizer_instance =>
        (* Get token count *)
        match count_tokens tokenizer_instance input_text with
        | Raise e => stop (Escaped e)
        | Return input_tokens =>
            (* Show basic cost calculation *)
            console_print_of cli
              (display_cost_summary cli input_text input_tokens output_tokens model)
              (cost_summary input_text input_tokens output_tokens model)
              (let compare : run :=
                 (* Compare models if requested *)
                 if compare_models_flag then
                   match cost_calculator_compare_models cli input_tokens
                           output_tokens with
                   | Raise e => stop (Escaped e)
                   | Return results =>
                       console_print_of cli (Return tt)
                         (model_cost_comparison (sorted by_total_cost results))
                         (stop Returned)
                   end
                 else stop Returned in
               (* Show what-if scenarios if requested *)
               if what_if then
                 match run_what_if_analysis cli input_text
                         tokenizer_instance model with
                 | Raise e => stop (Escaped e)
                 | Return analysis =>
                     console_print_of cli (display_what_if_results cli analysis)
                       (what_if_results analysis) compare
                 end
               else compare)
        end
    end
  end
  end.

Definition handle_calculate_cost_command (cli : Cli) (input_text model : string)
    (output_tokens : Z) (tokenizer : string)
    (what_if compare_models_flag : bool) : run :=
  (* Check if input is a file path *)
  match Path_exists cli input_text with
  | Throws e => stop (Escaped (FromLibrary e))
  | Gives false =>
      calculate_cost cli input_text model output_tokens tokenizer
        what_if compare_models_flag
  | Gives true =>
      match Path_is_file cli input_text with
      | Throws e => stop (Escaped (FromLibrary e))
      | Gives false =>
          calculate_cost cli input_text model output_tokens tokenizer
            what_if compare_models_flag
      | Gives true =>
          (* the try block of lines 56-62 *)
          match open_read cli input_text with
          | Gives content =>
              match print_info_fault cli (Read_input_from_file input_text) with
              | None =>
                  printed [print_info (Read_input_from_file input_text)]
                    (calculate_cost cli content model output_tokens tokenizer
                       what_if compare_models_flag)
              | Some e => error_exit cli (Failed_to_read_file e)
              end
          | Throws e => error_exit cli (Failed_to_read_file e)
          end
      end
  end.

(** ** Sample collaborators

    Concrete tokenizer objects and environments on which the definitions
    above are run. *)
Module Samples.

(** One id per character, one token per id: a stand-in for the object
    [T5Tokenizer.from_pretrained] returns. *)
Definition char_ids (text : string) : list Z :=
  map (fun c => Z.of_nat (Ascii.nat_of_ascii c)) (list_ascii_of_string text).

Definition id_token (i : Z) : string :=
  String (Ascii.ascii_of_nat (Z.to_nat i)) "".

Definition wrapper : TokObj :=
  {| attr_encode :=
       Some {| encode_ids := fun text _ => Gives (char_ids text);
               encode_pieces := fun text => Gives (map id_token (char_ids text)) |};
     attr_convert_ids_to_tokens := Some (fun ids => Gives (map id_token ids));
     attr_decode :=
       Some (fun ids _ => Gives (String.concat "" (map id_token ids)));
     attr_vocab_size := Some 32100;
     attr_get_piece_size := None |}.

(** A [SentencePieceProcessor] of a release without the snake-case method
    names: no [encode], no [decode]. *)
Definition processor_without_encode (model : option string) : TokObj :=
  {| attr_encode := None;
     attr_convert_ids_to_tokens := None;
     attr_decode := None;
     attr_vocab_size := None;
     attr_get_piece_size := Some (fun _ => Gives 100) |}.

(** A [SentencePieceProcessor] with [encode] and [decode]: they take
    [out_type], not the keywords of the transformers wrapper, and there is
    no [convert_ids_to_tokens]. *)
Definition processor_with_encode (model : option string) : TokObj :=
  {| attr_encode :=
       Some {| encode_ids := fun text kw =>
                 match kw with
                 | out_type_int => Gives (char_ids text)
                 | add_special_tokens _ =>
                     Throws (LibError "TypeError: unexpected keyword argument")
                 end;
               encode_pieces := fun text => Gives (map id_token (char_ids text)) |};
     attr_convert_ids_to_tokens := None;
     attr_decode :=
       Some (fun ids kw =>
               match kw with
               | no_kw => Gives (String.concat "" (map id_token ids))
               | skip_special_tokens _ =>
                   Throws (LibError "TypeError: unexpected keyword argument")
               end);
     attr_vocab_size := None;
     attr_get_piece_size := Some (fun _ => Gives 100) |}.

(** transformers is installed and the model can be fetched. *)
Definition online : Env :=
  {| T5Tokenizer_from_pretrained := fun _ => Gives wrapper;
     import_sentencepiece := Gives tt;
     SentencePieceTrainer := fun _ _ => Gives "unigram-model";
     SentencePieceTrainer_vocab := fun _ _ => "unigram-vocab";
     SentencePieceProcessor := processor_without_encode;
     SentencePieceProcessor_load := fun _ => Gives tt;
     fault_create_directory := NoFault;
     fault_get_file_info := NoFault;
     fault_create_temp_directory := NoFault;
     fresh_temp_directory := fun prefix => "/tmp/" +:+ prefix +:+ "0";
     fault_write_text := NoFault |}.

(** Neither transformers nor sentencepiece can be imported. *)
Definition nothing_installed : Env :=
  {| T5Tokenizer_from_pretrained := fun _ => Throws LibImportError;
     import_sentencepiece := Throws LibImportError;
     SentencePieceTrainer := fun _ _ => Gives "unigram-model";
     SentencePieceTrainer_vocab := fun _ _ => "unigram-vocab";
     SentencePieceProcessor := processor_without_encode;
     SentencePieceProcessor_load := fun _ => Gives tt;
     fault_create_directory := NoFault;
     fault_get_file_info := NoFault;
     fault_create_temp_directory := NoFault;
     fresh_temp_directory := fun prefix => "/tmp/" +:+ prefix +:+ "0";
     fault_write_text := NoFault |}.

(** No transformers; sentencepiece is there, with the given processor
    class, and the file store has the given faults. *)
Definition direct (processor : option string -> TokObj)
    (mkdir stat mktemp write : fault) : Env :=
  {| T5Tokenizer_from_pretrained := fun _ => Throws LibImportError;
     import_sentencepiece := Gives tt;
     SentencePieceTrainer := fun _ _ => Gives "unigram-model";
     SentencePieceTrainer_vocab := fun _ _ => "unigram-vocab";
     SentencePieceProcessor := processor;
     SentencePieceProcessor_load := fun _ => Gives tt;
     fault_create_directory := mkdir;
     fault_get_file_info := stat;
     fault_create_temp_directory := mktemp;
     fresh_temp_directory := fun prefix => "/tmp/" +:+ prefix +:+ "0";
     fault_write_text := write |}.

(** A new instance in an empty file store. *)
Definition fresh : state :=
  {| self := __init__; files := ∅; history := [] |}.

Definition after (env : Env) (s : state) : state := snd (initialize env s).

Definition table : pricing_table :=
  [ ("gpt-4-turbo", {| input_rate := 1 # 100; output_rate := 3 # 100 |});
    ("gpt-3.5-turbo", {| input_rate := 5 # 10000; output_rate := 15 # 10000 |});
    ("claude-3-opus", {| input_rate := 15 # 1000; output_rate := 75 # 1000 |}) ].

(** The file store works and holds nothing yet; sentencepiece has the
    given processor class. *)
Definition healthy (processor : option string -> TokObj) : Env :=
  direct processor NoFault NoFault NoFault NoFault.

(** The models directory cannot be created. *)
Definition read_only : Env :=
  direct processor_with_encode (FailResult "read-only file system")
    NoFault NoFault NoFault.

(** The file store cannot inspect files, everything else works. *)
Definition blind : Env :=
  direct processor_with_encode NoFault (FailResult "permission denied")
    NoFault NoFault.

(** A variant initialized through the pretrained wrapper, as the command
    finds it in the plugin. *)
Definition ready : TokenizerInstance := instance_of (self (after online fresh)).

(** Everything the command calls works; one file is on disk. *)
Definition cli : Cli :=
  {| Path_exists := fun p => Gives (String.eqb p "notes.txt");
     Path_is_file := fun p => Gives (String.eqb p "notes.txt");
     open_read := fun p =>
       if String.eqb p "notes.txt" then Gives "hello world"
       else Throws (LibError "No such file or directory");
     print_info_fault := fun _ => None;
     print_error_returns := false;
     TokenScopePlugin := Return tt;
     plugin_initialize := Return {| success := true; path := ""; error := "" |};
     plugin__tokenizers := [("tiktoken", ready)];
     display_cost_summary := fun _ _ _ _ => Return tt;
     run_what_if_analysis := fun _ _ _ => Return [];
     display_what_if_results := fun _ => Return tt;
     cost_calculator_compare_models := fun i o =>
       Return (compare_models table i (inject_Z o));
     console_print_fault := fun _ => None |}.

End Samples.

(** ** The shapes of a run of the command *)

(** After an error message the handler returns, unless [print_error] has
    ended the process with the exit code. *)
Definition after_an_error (e : ending) : Prop := e = Returned \/ e = Exited 1.

(** How a run of [calculate_cost] (lines 64-123) can go, for the text it
    works on. *)
Inductive body (text model : string) (output_tokens : Z)
    (what_if compare_models_flag : bool) : run -> Prop :=
| plugin_not_initialized err e :
    after_an_error e ->
    body text model output_tokens what_if compare_models_flag
      ([print_error (Failed_to_initialize_tokenscope_plugin err) 1], e)
| tokenizer_not_registered tokenizer available e :
    after_an_error e ->
    body text model output_tokens what_if compare_models_flag
      ([print_error (Tokenizer_not_found tokenizer available) 1], e)
| escapes_before_the_summary e :
    body text model output_tokens what_if compare_models_flag ([], Escaped e)
| escapes_after_the_summary n e :
    what_if || compare_models_flag = true ->
    body text model output_tokens what_if compare_models_flag
      ([console_print (cost_summary text n output_tokens model)], Escaped e)
| escapes_after_the_analysis n analysis e :
    what_if = true ->
    compare_models_flag = true ->
    body text model output_tokens what_if compare_models_flag
      ([console_print (cost_summary text n output_tokens model);
        console_print (what_if_results analysis)], Escaped e)
| all_shown n analysis results :
    body text model output_tokens what_if compare_models_flag
      (console_print (cost_summary text n output_tokens model)
       :: ((if what_if then [console_print (what_if_results analysis)] else [])
           ++ (if compare_models_flag
               then [console_print
                       (model_cost_comparison (sorted by_total_cost results))]
               else []))%list,
       Returned).

(** How a run of [handle_calculate_cost_command] can go. *)
Inductive transcript (cli : Cli) (input_text model : string) (output_tokens : Z)
    (what_if compare_models_flag : bool) : run -> Prop :=
| inspection_escapes e :
    transcript cli input_text model output_tokens what_if compare_models_flag
      ([], Escaped (FromLibrary e))
| file_unreadable e_read e :
    after_an_error e ->
    transcript cli input_text model output_tokens what_if compare_models_flag
      ([print_error (Failed_to_read_file e_read) 1], e)
| text_from_file content r :
    open_read cli input_text = Gives content ->
    body content model output_tokens what_if compare_models_flag r ->
    transcript cli input_text model output_tokens what_if compare_models_flag
      (printed [print_info (Read_input_from_file input_text)] r)
| text_as_given r :
    body input_text model output_tokens what_if compare_models_flag r ->
    transcript cli input_text model output_tokens what_if compare_models_flag r.

Definition is_console_print (o : output) : bool :=
  match o with console_print _ => true | _ => false end.

(** The last character of a string. *)
Fixpoint last_char (s : string) : option Ascii.ascii :=
  match s with
  | EmptyString => None
  | String c EmptyString => Some c
  | String _ rest => last_char rest
  end.

(** ** The package initialization ([src/quacktokenscope/__init__.py]) *)

Module Package.

(** The lines of the module-level [logger]. *)
Inductive line : Type :=
| Directory_structure_initialized
| Error_creating_directories (e : exc)
| QuackTokenScope_initialized.

Inductive entry : Type :=
| Requested (p : string) (a : reply)
| Debug (l : line)
| Warning (l : line).

(** The file store and the journal of requests and log lines, most recent
    last. *)
Record world : Type := {
  store : gmap string node;
  journal : list entry
}.

Definition P (A : Type) : Type := world -> outcome A * world.

Definition unit_P {A} (a : A) : P A := fun w => (Return a, w).

Definition then_P {A B} (c : P A) (k : A -> P B) : P B :=
  fun w =>
    match c w with
    | (Return a, w') => k a w'
    | (Raise e, w') => (Raise e, w')
    end.

(** [try: body except Exception as e: handler e] *)
Definition attempt {A} (body : P A) (handler : exc -> P A) : P A :=
  fun w =>
    match body w with
    | (Return a, w') => (Return a, w')
    | (Raise e, w') => handler e w'
    end.

Definition noted (e : entry) (w : world) : world :=
  {| store := store w; journal := journal w ++ [e] |}.

Definition debug (l : line) : P unit := fun w => (Return tt, noted (Debug l) w).

Definition warning (l : line) : P unit := fun w => (Return tt, noted (Warning l) w).

(** [fs.create_directory(p, exist_ok=True)], as [fs_create_directory] above,
    with a fault for every path. *)
Definition create_directory (faults : string -> fault) (p : string) : P DataResult :=
  fun w =>
    match faults p with
    | NoFault =>
        match store w !! p with
        | Some (File _) =>
            (Return {| success := false; path := p; error := "not a directory" |},
             noted (Requested p Failed) w)
        | Some Directory =>
            (Return {| success := true; path := p; error := "" |},
             noted (Requested p Succeeded) w)
        | None =>
            (Return {| success := true; path := p; error := "" |},
             noted (Requested p Succeeded)
               {| store := <[p := Directory]> (store w); journal := journal w |})
        end
    | FailResult err =>
        (Return {| success := false; path := p; error := err |},
         noted (Requested p Failed) w)
    | Raises e =>
        (Raise (FromLibrary e), noted (Requested p Raised) w)
    end.

(** [ensure_directories] (lines 40-49): the results of the four requests are
    dropped. *)
Definition ensure_directories (faults : string -> fault) : P unit :=
  attempt
    (then_P (create_directory faults "./output") (fun _ =>
     then_P (create_directory faults "./temp") (fun _ =>
     then_P (create_directory faults "./logs") (fun _ =>
     then_P (create_directory faults "./models") (fun _ =>
     debug Directory_structure_initialized)))))
    (fun e => warning (Error_creating_directories e)).

(** [initialize] (lines 52-56). *)
Definition initialize (faults : string -> fault) : P unit :=
  then_P (ensure_directories faults) (fun _ =>
  debug QuackTokenScope_initialized).

(** One request after the other, as long as none raises. *)
Fixpoint create_each (faults : string -> fault) (paths : list string) : P unit :=
  match paths with
  | [] => unit_P tt
  | p :: rest => then_P (create_directory faults p) (fun _ => create_each faults rest)
  end.

(** The four directories, in the order they are asked for. *)
Definition directories : list string :=
  ["./output"; "./temp"; "./logs"; "./models"].

Definition raising (faults : string -> fault) (p : string) : option lib_error :=
  match faults p with
  | Raises e => Some e
  | _ => None
  end.

(** The paths up to and including the first one whose request raises. *)
Fixpoint attempted (faults : string -> fault) (paths : list string) : list string :=
  match paths with
  | [] => []
  | p :: rest =>
      match raising faults p with
      | Some _ => [p]
      | None => p :: attempted faults rest
      end
  end.

(** The error of the first request that raises. *)
Fixpoint first_error (faults : string -> fault) (paths : list string) : option lib_error :=
  match paths with
  | [] => None
  | p :: rest =>
      match raising faults p with
      | Some e => Some e
      | None => first_error faults rest
      end
  end.

(** The paths requested, as the journal has them. *)
Fixpoint requests (entries : list entry) : list string :=
  match entries with
  | [] => []
  | Requested p _ :: rest => p :: requests rest
  | _ :: rest => requests rest
  end.

Definition is_log_line (e : entry) : bool :=
  match e with
  | Requested _ _ => false
  | _ => true
  end.

(** What a request for [p] that does not fail leaves in the store. *)
Definition made (faults : string -> fault) (fs : gmap string node) (p : string)
  : gmap string node :=
  match faults p with
  | NoFault =>
      match fs !! p with
      | None => <[p := Directory]> fs
      | Some _ => fs
      end
  | _ => fs
  end.

End Package.

(** ** More sample collaborators *)
Module MoreSamples.

(** No transformers; the model file is there but the processor rejects it. *)
Definition corrupt : Env :=
  {| T5Tokenizer_from_pretrained := fun _ => Throws LibImportError;
     import_sentencepiece := Gives tt;
     SentencePieceTrainer := fun _ _ => Gives "unigram-model";
     SentencePieceTrainer_vocab := fun _ _ => "unigram-vocab";
     SentencePieceProcessor := Samples.processor_with_encode;
     SentencePieceProcessor_load := fun _ => Throws (LibError "not a model");
     fault_create_directory := NoFault;
     fault_get_file_info := NoFault;
     fault_create_temp_directory := NoFault;
     fresh_temp_directory := fun prefix => "/tmp/" +:+ prefix +:+ "0";
     fault_write_text := NoFault |}.

(** A file store with a model artifact in place. *)
Definition with_artifact : state :=
  {| self := __init__;
     files := {[ "./models/sentencepiece.model" := File "unigram-model" ]};
     history := [] |}.

(** A variant initialized through the direct fallback, registered in the
    plugin under the name the command asks for by default. *)
Definition direct_instance : TokenizerInstance :=
  instance_of
    (self (Samples.after (Samples.healthy Samples.processor_without_encode)
             Samples.fresh)).

Definition cli_with_direct_instance : Cli :=
  {| Path_exists := fun p => Gives (String.eqb p "notes.txt");
     Path_is_file := fun p => Gives (String.eqb p "notes.txt");
     open_read := fun p =>
       if String.eqb p "notes.txt" then Gives "hello world"
       else Throws (LibError "No such file or directory");
     print_info_fault := fun _ => None;
     print_error_returns := true;
     TokenScopePlugin := Return tt;
     plugin_initialize := Return {| success := true; path := ""; error := "" |};
     plugin__tokenizers := [("tiktoken", direct_instance)];
     display_cost_summary := fun _ _ _ _ => Return tt;
     run_what_if_analysis := fun _ _ _ => Return [];
     display_what_if_results := fun _ => Return tt;
     cost_calculator_compare_models := fun i o =>
       Return (compare_models Samples.table i (inject_Z o));
     console_print_fault := fun _ => None |}.

(** No transformers, no model artifact, and the trainer refuses the corpus:
    the sample text is three sentences, and a vocabulary of 100 pieces is
    asked for. *)
Definition untrainable : Env :=
  {| T5Tokenizer_from_pretrained := fun _ => Throws LibImportError;
     import_sentencepiece := Gives tt;
     SentencePieceTrainer := fun _ _ => Throws (LibError "Vocabulary size too high");
     SentencePieceTrainer_vocab := fun _ _ => "";
     SentencePieceProcessor := Samples.processor_with_encode;
     SentencePieceProcessor_load := fun _ => Gives tt;
     fault_create_directory := NoFault;
     fault_get_file_info := NoFault;
     fault_create_temp_directory := NoFault;
     fresh_temp_directory := fun prefix => "/tmp/" +:+ prefix +:+ "0";
     fault_write_text := NoFault |}.



(** The file store refuses the logs directory with a failure result. *)
Definition logs_refused (p : string) : fault :=
  if String.eqb p "./logs" then FailResult "permission denied" else NoFault.

(** The request for the temp directory raises. *)
Definition temp_raises (p : string) : fault :=
  if String.eqb p "./temp" then Raises (LibError "disk error") else NoFault.

Definition working (p : string) : fault := NoFault.

Definition empty_world : Package.world :=
  {| Package.store := ∅; Package.journal := [] |}.

End MoreSamples.

(** * Properties *)

(** ** Running [initialize] symbolically *)

Ltac run_initialize :=
  unfold initialize, try_except, bind, ask, fs_create_directory,
    fs_get_file_info, fs_create_temp_directory, fs_write_text, spm_train,
    spm_load, logger, record, ret, raise, set__tokenizer, set__initialized,
    set__temp_dir, get_files, put_file, bind; cbn.

(** Case analysis on the innermost undecided answer of the environment. *)
Ltac branch :=
  match goal with
  | |- context [match ?x with _ => _ end] =>
      lazymatch x with
      | context [match _ with _ => _ end] => fail
      | _ => destruct x eqn:?; cbn
      end
  end.

(** The same on every occurrence of one call at once. *)
Ltac initialize_cases env s :=
  pattern (initialize env s);
  match goal with
  | |- ?P _ =>
      let Q := fresh "Q" in
      set (Q := P); run_initialize; repeat branch; subst Q; cbn beta
  end.

Ltac which_event H :=
  repeat (destruct H as [H | H];
          [ inversion H; subst; clear H; cbn in *; try discriminate | ]);
  try contradiction.

Ltac use_answers :=
  repeat match goal with
         | H : ?x = _ |- context [?x] => rewrite H; cbn
         end.

(** Every call returns a boolean; the strategic requests it made follow one
    of the courses; the flag [_initialized] is raised exactly by a call that
    returns [True]; and a failed request to the file store ends the call with
    [False] and the tokenizer untouched. *)
Lemma initialize_analysis (env : Env) (s : state) :
  exists b s' new,
    initialize env s = (Return b, s') /\
    history s' = (history s ++ new)%list /\
    course (List.filter strategic new) b /\
    _initialized (self s') = (_initialized (self s) || b) /\
    (forall r a, In (Asked r a) new -> file_store_request r = true ->
                 failed a = true ->
                 b = false /\ _tokenizer (self s') = _tokenizer (self s)).
Proof.
  run_initialize.
  repeat branch.
  all: eexists _, _, _; split; [reflexivity|];
    cbn [history self _initialized _tokenizer]; rewrite <- ?app_assoc; cbn [app];
    split; [reflexivity|].
  all: split; [cbn; try constructor; auto
              | split; [ now rewrite ?orb_true_r, ?orb_false_r | ]].
  all: intros r a' Hin Hr Ha; cbn in Hin; which_event Hin; auto.
Qed.

Lemma events_of_new (env : Env) (s s' : state) (b : outcome bool) (new : list event) :
  initialize env s = (b, s') ->
  history s' = (history s ++ new)%list ->
  events_of env s = new.
Proof.
  intros E H. unfold events_of. rewrite E. cbn. rewrite H.
  apply drop_app_length.
Qed.

(** ** Paths in the file store *)

Lemma length_append (a b : string) :
  String.length (a +:+ b) = (String.length a + String.length b)%nat.
Proof. induction a as [|c a IH]; simpl; [reflexivity | now rewrite IH]. Qed.

(** The training file never lands on the models directory. *)
Lemma train_path_not_models (d : string) : fs_join_path d "train.txt" <> "./models".
Proof.
  intros H. apply (f_equal String.length) in H.
  unfold fs_join_path in H. rewrite !length_append in H. simpl in H. lia.
Qed.

Lemma model_path_not_models :
  fs_join_path "./models" "sentencepiece.model" <> "./models".
Proof. discriminate. Qed.

(** The trainer writes [<model_prefix>.model] where [initialize] looks for
    the model. *)
Ltac same_model_path :=
  change (("./models" +:+ "/sentencepiece") +:+ ".model")
    with (fs_join_path "./models" "sentencepiece.model") in *.

(** ** The strategies of [initialize] *)



(** ** The guard of [tokenize], [decode] and [get_vocab_size] *)

Lemma lifecycle_initialized (t : SentencePieceTokenizer) (won : bool) :
  lifecycle t won -> _initialized t = won.
Proof.
  intros L. induction L as [|t won env fs h b s' L IH E]; [reflexivity|].
  destruct (initialize_analysis env {| self := t; files := fs; history := h |})
    as (b' & s'' & new & E' & _ & _ & I & _).
  rewrite E in E'. inversion E'; subst b' s''. rewrite I. cbn. now rewrite IH.
Qed.

Lemma guard_closed (t : SentencePieceTokenizer) (text : string) (ids : list Z) :
  _initialized t = false ->
  tokenize t text = Raise not_initialized /\
  decode t ids = Raise not_initialized /\
  get_vocab_size t = Raise not_initialized.
Proof.
  intros H. unfold tokenize, decode, get_vocab_size. now rewrite H.
Qed.

Lemma guard_open (t : SentencePieceTokenizer) (text : string) (ids : list Z) :
  _initialized t = true ->
  tokenize t text <> Raise not_initialized /\
  decode t ids <> Raise not_initialized /\
  get_vocab_size t <> Raise not_initialized.
Proof.
  intros H. unfold tokenize, decode, get_vocab_size, hasattr, getattr, call, obind.
  rewrite H. cbn.
  repeat split; repeat case_match; simplify_eq; discriminate.
Qed.

(** C2. On an instance on which no call of [initialize] has returned [True]
    yet, [tokenize], [decode] and [get_vocab_size] raise the not-initialized
    error for every argument; once a call has returned [True], none of them
    raises that error any more. *)
Theorem not_initialized_before_successful_initialize
    (t : SentencePieceTokenizer) (won : bool) (text : string) (ids : list Z) :
  lifecycle t won ->
  if won then
    tokenize t text <> Raise not_initialized /\
    decode t ids <> Raise not_initialized /\
    get_vocab_size t <> Raise not_initialized
  else
    tokenize t text = Raise not_initialized /\
    decode t ids = Raise not_initialized /\
    get_vocab_size t = Raise not_initialized.
Proof.
  intros L. apply lifecycle_initialized in L.
  destruct won; [now apply guard_open | now apply guard_closed].
Qed.

(** ** Failures of the file store *)

(** C3. When creating the models directory, creating the temporary directory
    or writing the training file fails during [initialize], by a failure
    result or by an exception, the call returns [False]; it does not raise,
    and the instance keeps the tokenizer and the flag it had. *)
Theorem file_store_failure_fails_initialize
    (env : Env) (s : state) (r : request) (a : reply) :
  file_store_request r = true ->
  failed a = true ->
  In (Asked r a) (events_of env s) ->
  fst (initialize env s) = Return false /\
  _initialized (self (snd (initialize env s))) = _initialized (self s) /\
  _tokenizer (self (snd (initialize env s))) = _tokenizer (self s).
Proof.
  intros Hr Ha Hin.
  destruct (initialize_analysis env s) as (b & s' & new & E & H & _ & I & F).
  rewrite (events_of_new _ _ _ _ _ E H) in Hin.
  destruct (F r a Hin Hr Ha) as [-> T].
  rewrite E. cbn. rewrite I, orb_false_r. auto.
Qed.

(** ** The two branches of [tokenize] and [decode] *)

(** Whatever [tokenize] returns, it got from the calls of the wrapper
    branch: [encode(text, add_special_tokens=False)] and
    [convert_ids_to_tokens]. *)
Lemma tokenize_returns_through_wrapper_calls
    (t : SentencePieceTokenizer) (text : string) (ids : list Z) (strs : list string) :
  tokenize t text = Return (ids, strs) ->
  exists enc conv,
    attr attr_encode (_tokenizer t) = Some enc /\
    encode_ids enc text (add_special_tokens false) = Gives ids /\
    attr attr_convert_ids_to_tokens (_tokenizer t) = Some conv /\
    conv ids = Gives strs.
Proof.
  unfold tokenize, hasattr, getattr, call, obind.
  repeat case_match; cbn in *; try discriminate.
  intros Hret; inversion Hret; simplify_eq. eauto 10.
Qed.

(** X16. With a wrapper whose [convert_ids_to_tokens] gives one token per id,
    the two sequences [tokenize] returns have the same length. *)
Lemma tokenize_wrapper_equal_length
    (t : SentencePieceTokenizer) (text : string) (ids : list Z) (strs : list string) :
  (forall conv l l', attr attr_convert_ids_to_tokens (_tokenizer t) = Some conv ->
                     conv l = Gives l' -> length l' = length l) ->
  tokenize t text = Return (ids, strs) ->
  length ids = length strs.
Proof.
  intros Hconv H.
  apply tokenize_returns_through_wrapper_calls in H
    as (enc & conv & _ & _ & Hc & Hs).
  symmetry. eauto.
Qed.

(** An object without [convert_ids_to_tokens], as a [SentencePieceProcessor]
    is, never gets a result out of [tokenize]. *)
Lemma tokenize_without_convert_ids_to_tokens
    (t : SentencePieceTokenizer) (text : string) :
  attr attr_convert_ids_to_tokens (_tokenizer t) = None ->
  returns (tokenize t text) = false.
Proof.
  intros H. destruct (tokenize t text) as [[ids strs]|e] eqn:E; [|reflexivity].
  apply tokenize_returns_through_wrapper_calls in E as (? & ? & _ & _ & Hc & _).
  congruence.
Qed.

(** C4 (the code departs from it). In the branch commented "Direct
    SentencePiece", [tokenize] does not return a pair of sequences: the
    branch is entered when the tokenizer object has no attribute [encode],
    and its first step is to call that attribute. *)
Theorem tokenize_direct_branch_raises (t : SentencePieceTokenizer) (text : string) :
  _initialized t = true ->
  hasattr (_tokenizer t) attr_encode = false ->
  tokenize t text = Raise (AttributeError "encode").
Proof.
  intros I H. unfold tokenize. rewrite I, H. cbn.
  unfold hasattr in H. destruct (attr attr_encode (_tokenizer t)); [discriminate|].
  reflexivity.
Qed.

(** C5 (the code departs from it). In the branch commented "Direct
    SentencePiece", [decode] raises for every id sequence, for the same
    reason as [tokenize]; and an instance whose tokenizer object takes that
    branch never gets a string out of [decode(tokenize(text).ids)]. *)
Theorem decode_direct_branch_raises (t : SentencePieceTokenizer) :
  _initialized t = true ->
  hasattr (_tokenizer t) attr_decode = false ->
  (forall ids, decode t ids = Raise (AttributeError "decode")) /\
  (forall text, returns (decode_tokenize t text) = false).
Proof.
  intros I H.
  assert (forall ids, decode t ids = Raise (AttributeError "decode")) as D.
  { intros ids. unfold decode. rewrite I, H. cbn.
    unfold hasattr in H. destruct (attr attr_decode (_tokenizer t)); [discriminate|].
    reflexivity. }
  split; [exact D|].
  intros text. unfold decode_tokenize, obind.
  destruct (tokenize t text); [now rewrite D | reflexivity].
Qed.

(** ** Calling [initialize] again *)

Lemma vocab_path_not_models :
  ("./models" +:+ "/sentencepiece") +:+ ".vocab" <> "./models".
Proof. discriminate. Qed.

Lemma vocab_path_not_model_path :
  ("./models" +:+ "/sentencepiece") +:+ ".vocab"
  <> fs_join_path "./models" "sentencepiece.model".
Proof. discriminate. Qed.

(** The trainer writes [<model_prefix>.model] where [initialize] looks for
    the model; then look-ups in the file store after the writes of a call,
    with [distinct] to tell a written path from the path looked up. *)
Ltac file_lookups distinct :=
  change (("./models" +:+ "/sentencepiece") +:+ ".model")
    with (fs_join_path "./models" "sentencepiece.model") in *;
  repeat match goal with
         | H : <[?k:=_]> _ !! ?k = _ |- _ =>
             rewrite lookup_insert_eq in H; inversion H; subst; clear H
         | H : <[?k:=_]> _ !! ?k' = _ |- _ =>
             rewrite (lookup_insert_ne _ k k') in H by distinct
         | |- context [<[?k:=_]> _ !! ?k] => rewrite lookup_insert_eq; cbn
         | |- context [<[?k:=_]> _ !! ?k'] =>
             rewrite (lookup_insert_ne _ k k') by distinct; cbn
         end.

(** C8 (as amended). When [initialize] has returned [True] and is called
    again in an environment that answers as it did the first time, on the
    file store the first call left behind, it returns [True] again and the
    instance is as the first call left it: same tokenizer object, same flag.
    If moreover the file store answers [get_file_info], the second call does
    not train: an artifact persisted by the first call is loaded. *)
Theorem initialize_again_same_environment (env : Env) (s s1 : state) :
  initialize env s = (Return true, s1) ->
  exists s2,
    initialize env s1 = (Return true, s2) /\
    self s2 = self s1 /\
    (fault_get_file_info env = NoFault ->
     forall a, ~ In (Asked train a) (events_of env s1)).
Proof.
  intros H.
  cut (exists s2 new,
          initialize env s1 = (Return true, s2) /\ self s2 = self s1 /\
          history s2 = (history s1 ++ new)%list /\
          (fault_get_file_info env = NoFault ->
           forall a, ~ In (Asked train a) new)).
  { intros (s2 & new & E & S & Hh & T). exists s2.
    rewrite (events_of_new _ _ _ _ _ E Hh). auto. }
  pattern s1. match goal with |- ?P s1 => set (Q := P) end.
  revert s1 H. run_initialize. repeat branch.
  all: intros s1 H; inversion H; subst; clear H; subst Q; cbn beta.
  all: run_initialize.
  all: destruct (decide (fresh_temp_directory env "quacktokenscope_spm_" = "./models"))
         as [Htmp|Htmp]; [try rewrite Htmp in *|].
  all: repeat (use_answers;
               file_lookups ltac:(first [ assumption
                                        | apply model_path_not_models
                                        | apply train_path_not_models
                                        | apply vocab_path_not_models
                                        | apply vocab_path_not_model_path ])).
  all: eexists _, _; split; [reflexivity|]; split; [reflexivity|];
    cbn [history]; rewrite <- ?app_assoc; cbn [app]; split; [reflexivity|].
  all: intros Hstat a' Hin; cbn in Hin; try congruence; try (intuition congruence).
Qed.

(** ** The cost model *)



(** ** [sorted] is a stable sort *)

Section SortedFacts.
Context {A : Type} (key : A -> Q).







End SortedFacts.

(** ** Comparing the models *)





(** ** The input text of the command *)

(** C10 (as amended). The command inspects the path its input text names.
    When that is an existing regular file that can be read, the command
    prints the note that the input was read from the file and goes on with
    the contents of the file in place of the text.  When the file cannot be
    read (or the note cannot be printed: it is in the same [try] block), the
    command prints an error with exit code 1 and ends there.  When
    the path does not exist or is not a regular file, the text is used as it
    is.  When inspecting the path raises, the exception escapes with nothing
    printed.  The text the command goes on with is the one that is tokenized
    and shown in the cost summary. *)
Theorem input_text_names_a_file (cli : Cli) (input_text model : string)
    (output_tokens : Z) (tokenizer : string) (what_if compare_models_flag : bool) :
  match Path_exists cli input_text with
  | Throws e =>
      handle_calculate_cost_command cli input_text model output_tokens
        tokenizer what_if compare_models_flag
      = ([], Escaped (FromLibrary e))
  | Gives false =>
      handle_calculate_cost_command cli input_text model output_tokens
        tokenizer what_if compare_models_flag
      = calculate_cost cli input_text model output_tokens tokenizer
          what_if compare_models_flag
  | Gives true =>
      match Path_is_file cli input_text with
      | Throws e =>
          handle_calculate_cost_command cli input_text model output_tokens
            tokenizer what_if compare_models_flag
          = ([], Escaped (FromLibrary e))
      | Gives false =>
          handle_calculate_cost_command cli input_text model output_tokens
            tokenizer what_if compare_models_flag
          = calculate_cost cli input_text model output_tokens tokenizer
              what_if compare_models_flag
      | Gives true =>
          match open_read cli input_text with
          | Gives content =>
              match print_info_fault cli (Read_input_from_file input_text) with
              | None =>
                  handle_calculate_cost_command cli input_text model
                    output_tokens tokenizer what_if compare_models_flag
                  = printed [print_info (Read_input_from_file input_text)]
                      (calculate_cost cli content model output_tokens tokenizer
                         what_if compare_models_flag)
              | Some e =>
                  handle_calculate_cost_command cli input_text model
                    output_tokens tokenizer what_if compare_models_flag
                  = ([print_error (Failed_to_read_file e) 1],
                     if print_error_returns cli then Returned else Exited 1)
              end
          | Throws e =>
              handle_calculate_cost_command cli input_text model output_tokens
                tokenizer what_if compare_models_flag
              = ([print_error (Failed_to_read_file e) 1],
                 if print_error_returns cli then Returned else Exited 1)
          end
      end
  end /\
  (forall text instance init_result,
      TokenScopePlugin cli = Return tt ->
      plugin_initialize cli = Return init_result ->
      success init_result = true ->
      dict_get tokenizer (plugin__tokenizers cli) = Some instance ->
      match count_tokens instance text with
      | Raise e =>
          calculate_cost cli text model output_tokens tokenizer
            what_if compare_models_flag
          = ([], Escaped e)
      | Return n =>
          display_cost_summary cli text n output_tokens model = Return tt ->
          console_print_fault cli (cost_summary text n output_tokens model) = None ->
          exists rest,
            fst (calculate_cost cli text model output_tokens tokenizer
                   what_if compare_models_flag)
            = console_print (cost_summary text n output_tokens model) :: rest
      end).
Proof.
  split.
  - unfold handle_calculate_cost_command.
    destruct (Path_exists cli input_text) as [[|]|]; try reflexivity.
    destruct (Path_is_file cli input_text) as [[|]|]; try reflexivity.
    destruct (open_read cli input_text); [|reflexivity].
    destruct (print_info_fault cli _); reflexivity.
  - intros text instance init_result Hnew Hinit Hok Hreg.
    unfold calculate_cost. rewrite Hnew, Hinit, Hok, Hreg. cbn.
    destruct (count_tokens instance text) as [n|e]; [|reflexivity].
    intros Hshow Hprint. unfold console_print_of. rewrite Hshow, Hprint.
    cbn. eauto.
Qed.

(** * The properties on the sample collaborators *)

Import Samples.

(** The pretrained wrapper is there: nothing else is tried. *)
Example pretrained_wrapper_wins :
  fst (initialize online fresh) = Return true /\
  events_of online fresh
  = [Asked from_pretrained Succeeded; Logged INFO Initialized_using_T5Tokenizer].
Proof. split; reflexivity. Qed.

(** No wrapper and no artifact: the model is trained, persisted and loaded. *)
Example training_fallback :
  fst (initialize (healthy processor_with_encode) fresh) = Return true /\
  List.filter strategic (events_of (healthy processor_with_encode) fresh)
  = [Asked from_pretrained Raised; Asked get_file_info Absent;
     Asked train Succeeded; Asked load Succeeded] /\
  files (after (healthy processor_with_encode) fresh)
    !! "./models/sentencepiece.model" = Some (File "unigram-model").
Proof. repeat split; vm_compute; reflexivity. Qed.


Lemma not_initialized_before_successful_initialize_witness :
  lifecycle (self (after online fresh)) true /\
  tokenize (self (after online fresh)) "hello" <> Raise not_initialized /\
  decode (self (after online fresh)) [104; 105] <> Raise not_initialized /\
  get_vocab_size (self (after online fresh)) <> Raise not_initialized.
Proof.
  assert (lifecycle (self (after online fresh)) true) as L.
  { exact (initialize_called __init__ false online ∅ [] true
             (after online fresh) constructed eq_refl). }
  split; [exact L|].
  exact (not_initialized_before_successful_initialize
           (self (after online fresh)) true "hello" [104; 105] L).
Defined.

Lemma file_store_failure_fails_initialize_witness :
  file_store_request create_directory = true /\
  failed Failed = true /\
  In (Asked create_directory Failed) (events_of read_only fresh) /\
  fst (initialize read_only fresh) = Return false /\
  _initialized (self (snd (initialize read_only fresh))) = _initialized (self fresh) /\
  _tokenizer (self (snd (initialize read_only fresh))) = _tokenizer (self fresh).
Proof.
  assert (In (Asked create_directory Failed) (events_of read_only fresh)) as Hin.
  { vm_compute. tauto. }
  split; [reflexivity|]. split; [reflexivity|]. split; [exact Hin|].
  exact (file_store_failure_fails_initialize read_only fresh create_directory
           Failed eq_refl eq_refl Hin).
Defined.

Lemma tokenize_direct_branch_raises_witness :
  _initialized (self (after (healthy processor_without_encode) fresh)) = true /\
  hasattr (_tokenizer (self (after (healthy processor_without_encode) fresh)))
    attr_encode = false /\
  tokenize (self (after (healthy processor_without_encode) fresh)) "hello"
  = Raise (AttributeError "encode").
Proof.
  split; [vm_compute; reflexivity|]. split; [vm_compute; reflexivity|].
  apply tokenize_direct_branch_raises; vm_compute; reflexivity.
Defined.

(** With a processor that does have [encode], the wrapper branch runs on it
    and passes it the wrapper's keyword. *)
Example tokenize_direct_sentencepiece_with_encode :
  fst (initialize (healthy processor_with_encode) fresh) = Return true /\
  tokenize (self (after (healthy processor_with_encode) fresh)) "hello"
  = Raise (FromLibrary (LibError "TypeError: unexpected keyword argument")) /\
  decode (self (after (healthy processor_with_encode) fresh)) [104; 105]
  = Raise (FromLibrary (LibError "TypeError: unexpected keyword argument")).
Proof. repeat split; vm_compute; reflexivity. Qed.

(** Through the pretrained wrapper the round trip works. *)
Example tokenize_wrapper_round_trip :
  tokenize (self (after online fresh)) "hello"
  = Return ([104; 101; 108; 108; 111], ["h"; "e"; "l"; "l"; "o"]) /\
  decode_tokenize (self (after online fresh)) "hello" = Return "hello".
Proof. split; vm_compute; reflexivity. Qed.

Lemma decode_direct_branch_raises_witness :
  _initialized (self (after (healthy processor_without_encode) fresh)) = true /\
  hasattr (_tokenizer (self (after (healthy processor_without_encode) fresh)))
    attr_decode = false /\
  decode (self (after (healthy processor_without_encode) fresh)) [104; 105]
  = Raise (AttributeError "decode") /\
  returns (decode_tokenize (self (after (healthy processor_without_encode) fresh))
             "hello") = false.
Proof.
  assert (_initialized (self (after (healthy processor_without_encode) fresh)) = true)
    as I by (vm_compute; reflexivity).
  assert (hasattr (_tokenizer (self (after (healthy processor_without_encode) fresh)))
            attr_decode = false) as H by (vm_compute; reflexivity).
  split; [exact I|]. split; [exact H|].
  destruct (decode_direct_branch_raises _ I H) as [D R].
  split; [apply D | apply R].
Defined.



(** C8, as the specification states it, fails.  After a call that returned
    through the pretrained wrapper, a second call in an environment where
    nothing can be imported any more returns [False]; and where the file
    store cannot inspect the artifact, a second call trains again. *)
Lemma initialize_again_can_fail :
  (fst (initialize online fresh) = Return true /\
   fst (initialize nothing_installed (after online fresh)) = Return false) /\
  (fst (initialize blind fresh) = Return true /\
   fst (initialize blind (after blind fresh)) = Return true /\
   In (Asked train Succeeded) (events_of blind (after blind fresh))).
Proof.
  split; [split; reflexivity|].
  split; [vm_compute; reflexivity|]. split; [vm_compute; reflexivity|].
  vm_compute. tauto.
Qed.

Lemma initialize_again_same_environment_witness :
  initialize (healthy processor_with_encode) fresh
  = (Return true, after (healthy processor_with_encode) fresh) /\
  exists s2,
    initialize (healthy processor_with_encode)
      (after (healthy processor_with_encode) fresh) = (Return true, s2) /\
    self s2 = self (after (healthy processor_with_encode) fresh) /\
    (fault_get_file_info (healthy processor_with_encode) = NoFault ->
     forall a, ~ In (Asked train a)
                 (events_of (healthy processor_with_encode)
                    (after (healthy processor_with_encode) fresh))).
Proof.
  assert (initialize (healthy processor_with_encode) fresh
          = (Return true, after (healthy processor_with_encode) fresh)) as E
    by (vm_compute; reflexivity).
  split; [exact E|].
  exact (initialize_again_same_environment _ _ _ E).
Defined.

(** C10, counterexample.  The replacement is not silent: for an input text
    that names a readable file the command prints the note
    [Read input from file: notes.txt] before the cost summary. *)
Lemma file_input_is_announced :
  fst (handle_calculate_cost_command cli "notes.txt" "gpt-4-turbo" 0 "tiktoken"
         false false)
  = [print_info (Read_input_from_file "notes.txt");
     console_print (cost_summary "hello world" 11 0 "gpt-4-turbo")].
Proof. vm_compute. reflexivity. Qed.

Lemma input_text_names_a_file_witness :
  handle_calculate_cost_command cli "notes.txt" "gpt-4-turbo" 0 "tiktoken" true true
  = printed [print_info (Read_input_from_file "notes.txt")]
      (calculate_cost cli "hello world" "gpt-4-turbo" 0 "tiktoken" true true) /\
  handle_calculate_cost_command cli "hello world" "gpt-4-turbo" 0 "tiktoken" true true
  = calculate_cost cli "hello world" "gpt-4-turbo" 0 "tiktoken" true true.
Proof.
  split.
  - exact (proj1 (input_text_names_a_file cli "notes.txt" "gpt-4-turbo" 0
                    "tiktoken" true true)).
  - exact (proj1 (input_text_names_a_file cli "hello world" "gpt-4-turbo" 0
                    "tiktoken" true true)).
Defined.

(** * Further properties *)

(** ** The tokenizer object of an instance *)

(** What a call does to the tokenizer object: a call that returns [True]
    leaves one in place, no call takes one away, and a failed [load] leaves
    the unloaded processor the call had just created. *)
Lemma initialize_tokenizer_object (env : Env) (s : state) :
  exists b s' new,
    initialize env s = (Return b, s') /\
    history s' = (history s ++ new)%list /\
    (b = true -> is_Some (_tokenizer (self s'))) /\
    (is_Some (_tokenizer (self s)) -> is_Some (_tokenizer (self s'))) /\
    (In (Asked load Raised) new ->
     b = false /\
     _tokenizer (self s') = Some (SentencePieceProcessor env None) /\
     _initialized (self s') = _initialized (self s)).
Proof.
  run_initialize.
  repeat branch.
  all: eexists _, _, _; split; [reflexivity|];
    cbn [history self _initialized _tokenizer]; rewrite <- ?app_assoc; cbn [app];
    split; [reflexivity|].
  all: split; [intros; try discriminate; eauto|].
  all: split; [intros; eauto|].
  all: intros Hin; cbn in Hin; which_event Hin; auto.
Qed.

(** X1. An instance on which some call of [initialize] has returned [True]
    holds a tokenizer object, whatever calls of [initialize] followed. *)
Theorem initialized_instance_holds_a_tokenizer (t : SentencePieceTokenizer) (won : bool) :
  lifecycle t won ->
  _initialized t = true ->
  exists obj, _tokenizer t = Some obj.
Proof.
  intros L.
  induction L as [|t won env fs h b s' L IH E]; [discriminate|].
  destruct (initialize_tokenizer_object env {| self := t; files := fs; history := h |})
    as (b' & s'' & new & E' & _ & Hb & Hkeep & _).
  destruct (initialize_analysis env {| self := t; files := fs; history := h |})
    as (b'' & s''' & new' & E'' & _ & _ & I & _).
  rewrite E in E', E''. inversion E'; inversion E''; subst b' s'' b'' s'''.
  cbn in *. rewrite I. intros F.
  destruct b.
  - now apply Hb.
  - apply Hkeep, IH. now rewrite orb_false_r in F.
Qed.

(** X2. A call whose [load] fails returns [False] but has already replaced
    the tokenizer object by a processor with nothing loaded, and leaves the
    flag as it was: an instance that was initialized stays flagged
    initialized with that unloaded processor. *)
Theorem failed_load_replaces_the_tokenizer (env : Env) (s : state) :
  In (Asked load Raised) (events_of env s) ->
  fst (initialize env s) = Return false /\
  _tokenizer (self (snd (initialize env s))) = Some (SentencePieceProcessor env None) /\
  _initialized (self (snd (initialize env s))) = _initialized (self s).
Proof.
  intros Hin.
  destruct (initialize_tokenizer_object env s) as (b & s' & new & E & H & _ & _ & F).
  rewrite (events_of_new _ _ _ _ _ E H) in Hin.
  destruct (F Hin) as (-> & T & I). rewrite E. auto.
Qed.

(** ** What the log tells *)

Lemma initialize_last_line (env : Env) (s : state) :
  exists b s' new,
    initialize env s = (Return b, s') /\
    history s' = (history s ++ new)%list /\
    match last new with
    | Some (Logged INFO Initialized_using_T5Tokenizer) =>
        b = true /\
        exists t, T5Tokenizer_from_pretrained env model_name = Gives t /\
                  _tokenizer (self s') = Some t
    | Some (Logged INFO Initialized_using_direct_SentencePiece) =>
        b = true /\
        exists e, T5Tokenizer_from_pretrained env model_name = Throws e
    | Some (Logged ERROR _) => b = false
    | _ => False
    end.
Proof.
  run_initialize.
  repeat branch.
  all: eexists _, _, _; split; [reflexivity|];
    cbn [history self _initialized _tokenizer]; rewrite <- ?app_assoc; cbn [app];
    split; [reflexivity|].
  all: cbn; eauto.
Qed.

(** X3. The last thing a call of [initialize] records is a log line that
    tells how it went: the info line naming the pretrained wrapper or the
    direct fallback exactly when it returns [True] through that strategy, an
    error line when it returns [False]. *)
Theorem last_log_line_tells_the_outcome (env : Env) (s : state) :
  exists b,
    fst (initialize env s) = Return b /\
    match last (events_of env s) with
    | Some (Logged INFO Initialized_using_T5Tokenizer) =>
        b = true /\
        exists t, T5Tokenizer_from_pretrained env model_name = Gives t /\
                  _tokenizer (self (snd (initialize env s))) = Some t
    | Some (Logged INFO Initialized_using_direct_SentencePiece) =>
        b = true /\
        exists e, T5Tokenizer_from_pretrained env model_name = Throws e
    | Some (Logged ERROR _) => b = false
    | _ => False
    end.
Proof.
  destruct (initialize_last_line env s) as (b & s' & new & E & H & L).
  exists b. rewrite (events_of_new _ _ _ _ _ E H), E. auto.
Qed.

(** ** The footprint of [initialize] in the file store *)

Lemma last_char_append (a b : string) :
  b <> EmptyString -> last_char (a +:+ b) = last_char b.
Proof.
  intros Hb. induction a as [|c a IH]; [reflexivity|].
  change (String c a +:+ b) with (String c (a +:+ b)).
  destruct (a +:+ b) as [|c' rest] eqn:E.
  - destruct a; [change (b = EmptyString) in E; congruence | discriminate].
  - rewrite <- IH. reflexivity.
Qed.

(** The training file never lands on the model artifact. *)
Lemma train_path_not_model_path (d : string) :
  fs_join_path d "train.txt" <> fs_join_path "./models" "sentencepiece.model".
Proof.
  intros H. apply (f_equal last_char) in H.
  unfold fs_join_path in H at 1. rewrite last_char_append in H by discriminate.
  discriminate.
Qed.

(** The training file never lands on the vocabulary file. *)
Lemma train_path_not_vocab_path (d : string) :
  fs_join_path d "train.txt" <> ("./models" +:+ "/sentencepiece") +:+ ".vocab".
Proof.
  intros H. apply (f_equal last_char) in H.
  unfold fs_join_path in H at 1. rewrite last_char_append in H by discriminate.
  discriminate.
Qed.


(** ** When the direct fallback is taken *)

(** X5. A trainer that raises makes [initialize] fail: the call returns
    [False], nothing is loaded, and the instance keeps the flag and the
    tokenizer it had.  (The trainer is asked for a vocabulary of 100 pieces
    from the three sentences of the sample text.) *)
Theorem trainer_failure_fails_initialize (env : Env) (s : state) :
  In (Asked train Raised) (events_of env s) ->
  fst (initialize env s) = Return false /\
  _initialized (self (snd (initialize env s))) = _initialized (self s) /\
  _tokenizer (self (snd (initialize env s))) = _tokenizer (self s) /\
  ~ asked load (events_of env s).
Proof.
  unfold events_of. initialize_cases env s.
  all: cbn [fst snd history self _tokenizer _initialized _temp_dir files].
  all: rewrite <- ?app_assoc, drop_app_length; cbn.
  all: intros Hin; which_event Hin.
  all: repeat split; auto.
  all: intros [? Hl]; which_event Hl.
Qed.

(** X6. Suppose the pretrained wrapper is unavailable, sentencepiece can be
    imported, the file store has no fault in [create_directory] nor in
    [get_file_info], the models directory is not a regular file, the model
    artifact is a file in the store and the processor loads it.  Then
    [initialize] returns [True] with the processor loaded with that
    artifact, without asking for a temporary directory, writing a training
    file or training; the artifact and [_temp_dir] stay as they were. *)
Theorem existing_artifact_is_loaded (env : Env) (s : state) (e : lib_error) (m : string) :
  T5Tokenizer_from_pretrained env model_name = Throws e ->
  import_sentencepiece env = Gives tt ->
  fault_create_directory env = NoFault ->
  fault_get_file_info env = NoFault ->
  (forall c, files s !! "./models" <> Some (File c)) ->
  files s !! fs_join_path "./models" "sentencepiece.model" = Some (File m) ->
  SentencePieceProcessor_load env m = Gives tt ->
  fst (initialize env s) = Return true /\
  self (snd (initialize env s))
  = {| _tokenizer := Some (SentencePieceProcessor env (Some m));
       _temp_dir := _temp_dir (self s);
       _initialized := true |} /\
  files (snd (initialize env s)) !! fs_join_path "./models" "sentencepiece.model"
  = Some (File m) /\
  (forall r a, In (Asked r a) (events_of env s) ->
               r <> create_temp_directory /\ r <> write_text /\ r <> train).
Proof.
  intros HT5 Himp Hmk Hstat Hdir Hart Hload.
  unfold events_of.
  run_initialize. rewrite HT5, Himp, Hmk. cbn.
  destruct (files s !! "./models") as [[|c]|] eqn:Hm; [| now destruct (Hdir c) |]; cbn.
  all: rewrite Hstat; cbn.
  all: rewrite ?(lookup_insert_ne _ "./models") by (symmetry; apply model_path_not_models).
  all: repeat (progress
                 (rewrite ?(lookup_insert_ne _ "./models")
                    by (symmetry; apply model_path_not_models);
                  rewrite ?Hart, ?Hload; cbn)).
  all: repeat split; auto.
  all: rewrite <- ?app_assoc, drop_app_length in *; cbn in *.
  all: try (which_event H; discriminate).
Qed.

(** ** What a direct initialization leaves behind *)

(** X7. When [initialize] returns [True] without the pretrained wrapper, the
    tokenizer of the instance is the processor loaded with exactly what the
    file store holds as the model artifact after the call. *)
Theorem direct_initialization_loads_the_artifact
    (env : Env) (s s' : state) (e : lib_error) :
  initialize env s = (Return true, s') ->
  T5Tokenizer_from_pretrained env model_name = Throws e ->
  exists m,
    files s' !! fs_join_path "./models" "sentencepiece.model" = Some (File m) /\
    _tokenizer (self s') = Some (SentencePieceProcessor env (Some m)).
Proof.
  intros H HT5. pattern s'. match goal with |- ?P s' => set (Q := P) end.
  revert s' H. run_initialize. rewrite HT5. cbn. repeat branch.
  all: intros s' H; inversion H; subst; clear H; subst Q; cbn beta; cbn.
  all: same_model_path.
  all: repeat match goal with
         | H : <[?k:=_]> _ !! ?k = _ |- _ =>
             rewrite lookup_insert_eq in H; inversion H; subst; clear H
         | H : <[_:=_]> _ !! fs_join_path "./models" "sentencepiece.model" = _
           |- _ =>
             rewrite (lookup_insert_ne _ _ _ _ vocab_path_not_model_path) in H
         end.
  all: rewrite ?(lookup_insert_ne _ _ _ _ vocab_path_not_model_path).
  all: rewrite ?lookup_insert_eq; eauto.
Qed.

(** X8. The temporary directory is never cleaned up: after a call in which
    the trainer ran, the training file with the sample text is still in the
    file store and [_temp_dir] names its directory, whether the call
    succeeded or not. *)
Theorem training_file_is_left_behind (env : Env) (s : state) (a : reply) :
  In (Asked train a) (events_of env s) ->
  files (snd (initialize env s))
    !! fs_join_path (fresh_temp_directory env "quacktokenscope_spm_") "train.txt"
  = Some (File sample_text) /\
  _temp_dir (self (snd (initialize env s)))
  = Some (fresh_temp_directory env "quacktokenscope_spm_").
Proof.
  unfold events_of. initialize_cases env s.
  all: cbn [fst snd history self _tokenizer _initialized _temp_dir files].
  all: rewrite <- ?app_assoc, drop_app_length; cbn.
  all: intros Hin; which_event Hin.
  all: same_model_path.
  all: repeat match goal with
         | H : <[?k:=_]> _ !! ?k = _ |- _ =>
             rewrite lookup_insert_eq in H; inversion H; subst; clear H
         end.
  all: rewrite ?(lookup_insert_ne _ (("./models" +:+ "/sentencepiece") +:+ ".vocab"))
         by (symmetry; apply train_path_not_vocab_path).
  all: rewrite ?(lookup_insert_ne _ (fs_join_path "./models" "sentencepiece.model"))
         by (symmetry; apply train_path_not_model_path).
  all: rewrite ?lookup_insert_eq; auto.
Qed.

(** ** Where the results of the three methods come from *)

(** X9. Whatever [tokenize], [decode] and [get_vocab_size] return, they got
    from these calls on the tokenizer object: [encode] with
    [add_special_tokens=False] followed by [convert_ids_to_tokens] on the ids
    it gave; [decode] with [skip_special_tokens=True]; the attribute
    [vocab_size] or, when there is none, [get_piece_size()].  The calls of
    the direct branches of [tokenize] and [decode] never produce a result. *)
Theorem results_come_from_these_calls (t : SentencePieceTokenizer) :
  (forall text ids strs,
      tokenize t text = Return (ids, strs) ->
      exists enc conv,
        attr attr_encode (_tokenizer t) = Some enc /\
        encode_ids enc text (add_special_tokens false) = Gives ids /\
        attr attr_convert_ids_to_tokens (_tokenizer t) = Some conv /\
        conv ids = Gives strs) /\
  (forall ids text,
      decode t ids = Return text ->
      exists dec,
        attr attr_decode (_tokenizer t) = Some dec /\
        dec ids (skip_special_tokens true) = Gives text) /\
  (forall n,
      get_vocab_size t = Return n ->
      attr attr_vocab_size (_tokenizer t) = Some n \/
      (attr attr_vocab_size (_tokenizer t) = None /\
       exists size, attr attr_get_piece_size (_tokenizer t) = Some size /\
                    size tt = Gives n)).
Proof.
  split; [|split].
  - intros text ids strs. apply tokenize_returns_through_wrapper_calls.
  - intros ids text. unfold decode, hasattr, getattr, call, obind.
    repeat case_match; cbn in *; try discriminate.
    intros Hret; inversion Hret; simplify_eq. eauto.
  - intros n. unfold get_vocab_size, hasattr, getattr, call, obind.
    repeat case_match; cbn in *; try discriminate.
    all: intros Hret; inversion Hret; simplify_eq; eauto 10.
    right. split; [|eauto].
    destruct (attr attr_vocab_size (_tokenizer t)); [discriminate | reflexivity].
Qed.

(** ** The runs of the command *)

Lemma error_exit_body (cli : Cli) :
  after_an_error (if print_error_returns cli then Returned else Exited 1).
Proof. unfold after_an_error. destruct (print_error_returns cli); auto. Qed.

Lemma calculate_cost_body (cli : Cli) (text model : string) (output_tokens : Z)
    (tokenizer : string) (what_if compare_models_flag : bool) :
  body text model output_tokens what_if compare_models_flag
    (calculate_cost cli text model output_tokens tokenizer what_if
       compare_models_flag).
Proof.
  unfold calculate_cost, error_exit.
  destruct (TokenScopePlugin cli); [|constructor].
  destruct (plugin_initialize cli) as [init_result|]; [|constructor].
  destruct (success init_result); cbn [negb];
    [|apply plugin_not_initialized, error_exit_body].
  destruct (dict_get tokenizer (plugin__tokenizers cli)) as [inst|];
    [|apply tokenizer_not_registered, error_exit_body].
  destruct (count_tokens inst text) as [n|e]; [|constructor].
  unfold console_print_of, printed, stop.
  destruct (display_cost_summary cli text n output_tokens model); [|constructor].
  destruct (console_print_fault cli (cost_summary text n output_tokens model));
    [constructor|].
  destruct what_if, compare_models_flag; cbn.
  - destruct (run_what_if_analysis cli text inst model) as [analysis|];
      [|now constructor].
    destruct (display_what_if_results cli analysis); [|now constructor].
    destruct (console_print_fault cli (what_if_results analysis));
      [now constructor|].
    destruct (cost_calculator_compare_models cli n output_tokens) as [results|];
      [|now constructor].
    destruct (console_print_fault cli _); [now constructor|].
    exact (all_shown text model output_tokens true true n analysis results).
  - destruct (run_what_if_analysis cli text inst model) as [analysis|];
      [|now constructor].
    destruct (display_what_if_results cli analysis); [|now constructor].
    destruct (console_print_fault cli (what_if_results analysis));
      [now constructor|].
    exact (all_shown text model output_tokens true false n analysis []).
  - destruct (cost_calculator_compare_models cli n output_tokens) as [results|];
      [|now constructor].
    destruct (console_print_fault cli _); [now constructor|].
    exact (all_shown text model output_tokens false true n [] results).
  - exact (all_shown text model output_tokens false false n [] []).
Qed.

(** X10. Every run of the command has one of these shapes.  Inspecting the
    path escapes with nothing printed.  Or the file cannot be read: one error
    is printed and the run ends.  Or, after the note that the input was read
    from a file if it was: one error for a plugin that did not initialize or
    a tokenizer that is not registered, and the run ends; or the cost
    summary, the what-if results and the comparison table, each of the last
    two exactly if its flag is set, in that order, up to the first call that
    raises, whose exception escapes, the handler returning if none does.
    After an error the handler returns unless [print_error] has ended the
    process, with exit code 1. *)
Theorem command_transcript (cli : Cli) (input_text model : string)
    (output_tokens : Z) (tokenizer : string) (what_if compare_models_flag : bool) :
  transcript cli input_text model output_tokens what_if compare_models_flag
    (handle_calculate_cost_command cli input_text model output_tokens tokenizer
       what_if compare_models_flag).
Proof.
  unfold handle_calculate_cost_command, error_exit.
  destruct (Path_exists cli input_text) as [[|]|]; [| |constructor].
  - destruct (Path_is_file cli input_text) as [[|]|]; [| |constructor].
    + destruct (open_read cli input_text) as [content|e] eqn:F.
      * destruct (print_info_fault cli _).
        -- apply file_unreadable, error_exit_body.
        -- apply (text_from_file _ _ _ _ _ _ content);
             [exact F | apply calculate_cost_body].
      * apply file_unreadable, error_exit_body.
    + apply text_as_given, calculate_cost_body.
  - apply text_as_given, calculate_cost_body.
Qed.

Lemma calculate_cost_error (cli : Cli) (text model : string) (output_tokens : Z)
    (tokenizer : string) (what_if compare_models_flag : bool)
    (msg : cli_message) (code : Z) :
  In (print_error msg code)
     (fst (calculate_cost cli text model output_tokens tokenizer what_if
             compare_models_flag)) ->
  calculate_cost cli text model output_tokens tokenizer what_if compare_models_flag
  = error_exit cli msg /\ code = 1.
Proof.
  unfold calculate_cost, console_print_of, printed, stop, error_exit.
  repeat branch.
  all: cbn; intros Hin.
  all: repeat (destruct Hin as [Hin|Hin]; [try discriminate|]); try contradiction.
  all: inversion Hin; subst; auto.
Qed.

(** X11. When the command prints an error it does so with exit code 1, the
    error is the last thing it prints, no cost summary, what-if result or
    comparison table is printed in that run, and no exception escapes: the
    handler returns, or [print_error] has ended the process with the exit
    code. *)
Theorem an_error_ends_the_command (cli : Cli) (input_text model : string)
    (output_tokens : Z) (tokenizer : string) (what_if compare_models_flag : bool)
    (msg : cli_message) (code : Z) :
  In (print_error msg code)
     (fst (handle_calculate_cost_command cli input_text model output_tokens
             tokenizer what_if compare_models_flag)) ->
  code = 1 /\
  last (fst (handle_calculate_cost_command cli input_text model output_tokens
               tokenizer what_if compare_models_flag))
  = Some (print_error msg code) /\
  snd (handle_calculate_cost_command cli input_text model output_tokens
         tokenizer what_if compare_models_flag)
  = (if print_error_returns cli then Returned else Exited 1) /\
  List.filter is_console_print
    (fst (handle_calculate_cost_command cli input_text model output_tokens
            tokenizer what_if compare_models_flag)) = [].
Proof.
  unfold handle_calculate_cost_command.
  destruct (Path_exists cli input_text) as [[|]|]; [| |intros []].
  - destruct (Path_is_file cli input_text) as [[|]|]; [| |intros []].
    + destruct (open_read cli input_text) as [content|e].
      * destruct (print_info_fault cli _).
        -- cbn. intros [[= <- <-]|[]]. auto.
        -- cbn. intros [Hin|Hin]; [discriminate|].
           destruct (calculate_cost_error _ _ _ _ _ _ _ _ _ Hin) as [-> ->].
           cbn. auto.
      * cbn. intros [[= <- <-]|[]]. auto.
    + intros Hin.
      destruct (calculate_cost_error _ _ _ _ _ _ _ _ _ Hin) as [-> ->].
      cbn. auto.
  - intros Hin.
    destruct (calculate_cost_error _ _ _ _ _ _ _ _ _ Hin) as [-> ->].
    cbn. auto.
Qed.

(** X12. The command does not catch what [tokenize] raises.  Suppose the
    plugin is constructed and initialized with success and holds, under the
    tokenizer name asked for, a SentencePiece variant that is initialized
    but whose tokenizer object has no [encode].  Then for every text the
    part of the command that follows the settling of the input text (lines
    64-123) ends with the [AttributeError] of the direct branch escaping and
    nothing printed; and the command as a whole, whatever its input text
    names, prints no cost summary, what-if result or comparison table. *)
Theorem command_escapes_on_a_direct_instance (cli : Cli) (t : SentencePieceTokenizer)
    (init_result : DataResult) (input_text model : string) (output_tokens : Z)
    (tokenizer : string) (what_if compare_models_flag : bool) :
  TokenScopePlugin cli = Return tt ->
  plugin_initialize cli = Return init_result ->
  success init_result = true ->
  dict_get tokenizer (plugin__tokenizers cli) = Some (instance_of t) ->
  _initialized t = true ->
  hasattr (_tokenizer t) attr_encode = false ->
  (forall text,
      calculate_cost cli text model output_tokens tokenizer what_if
        compare_models_flag
      = ([], Escaped (AttributeError "encode"))) /\
  List.filter is_console_print
    (fst (handle_calculate_cost_command cli input_text model output_tokens
            tokenizer what_if compare_models_flag)) = [].
Proof.
  intros Hnew Hplugin Hok Hreg Hinit Henc.
  assert (forall text,
             calculate_cost cli text model output_tokens tokenizer what_if
               compare_models_flag
             = ([], Escaped (AttributeError "encode"))) as Hbody.
  { intros text.
    assert (tokenize t text = Raise (AttributeError "encode")) as Htok.
    { unfold tokenize. rewrite Hinit, Henc. cbn.
      unfold hasattr in Henc.
      destruct (attr attr_encode (_tokenizer t)); [discriminate | reflexivity]. }
    unfold calculate_cost, count_tokens. rewrite Hnew, Hplugin, Hok, Hreg. cbn.
    now rewrite Htok. }
  split; [exact Hbody|].
  unfold handle_calculate_cost_command, error_exit.
  destruct (Path_exists cli input_text) as [[|]|]; [| |reflexivity].
  - destruct (Path_is_file cli input_text) as [[|]|]; [| |reflexivity].
    + destruct (open_read cli input_text); [|reflexivity].
      destruct (print_info_fault cli _); [reflexivity|].
      now rewrite Hbody.
    + now rewrite Hbody.
  - now rewrite Hbody.
Qed.

(** ** The package initialization *)

Section PackageFacts.
Import Package.

Lemma ensure_directories_create_each (faults : string -> fault) (w : world) :
  ensure_directories faults w
  = attempt (then_P (create_each faults directories)
               (fun _ => debug Directory_structure_initialized))
      (fun e => warning (Error_creating_directories e)) w.
Proof.
  unfold ensure_directories, directories, attempt, then_P. cbn.
  unfold then_P.
  destruct (create_directory faults "./output" w) as [[r1|e1] w1]; cbn; [|reflexivity].
  destruct (create_directory faults "./temp" w1) as [[r2|e2] w2]; cbn; [|reflexivity].
  destruct (create_directory faults "./logs" w2) as [[r3|e3] w3]; cbn; [|reflexivity].
  destruct (create_directory faults "./models" w3) as [[r4|e4] w4]; cbn; reflexivity.
Qed.

Lemma create_each_spec (faults : string -> fault) (paths : list string) (w : world) :
  exists new,
    snd (create_each faults paths w)
    = {| store := foldl (made faults) (store w) (attempted faults paths);
         journal := (journal w ++ new)%list |} /\
    requests new = attempted faults paths /\
    List.filter is_log_line new = [] /\
    fst (create_each faults paths w)
    = match first_error faults paths with
      | Some e => Raise (FromLibrary e)
      | None => Return tt
      end.
Proof.
  revert w. induction paths as [|p paths IH]; intros w.
  - exists []. cbn. rewrite app_nil_r. destruct w; auto.
  - cbn [create_each attempted first_error]. unfold then_P, create_directory, raising, made.
    destruct (faults p) as [|err|e] eqn:F; cbn.
    + destruct (store w !! p) as [[|c]|] eqn:L; cbn.
      all: match goal with
           | |- context [create_each _ _ ?w1] =>
               destruct (IH w1) as (new & S & R & G & O)
           end.
      all: eexists (_ :: new); rewrite S, O; cbn; rewrite F, ?L; cbn;
        rewrite <- app_assoc; cbn; rewrite R, G; auto.
    + match goal with
      | |- context [create_each _ _ ?w1] =>
          destruct (IH w1) as (new & S & R & G & O)
      end.
      eexists (_ :: new); rewrite S, O; cbn; rewrite F; cbn;
        rewrite <- app_assoc; cbn; rewrite R, G; auto.
    + eexists [_]. cbn. rewrite F. auto.
Qed.

(** X13. [ensure_directories] never raises and asks for the four directories
    in the order output, temp, logs, models, stopping after the first request
    that raises.  It logs exactly one line, at the end: the warning with the
    error of that request, or the debug line if no request raised, also when
    requests came back with a failure result.  [initialize] adds its own
    debug line. *)
Theorem ensure_directories_journal (faults : string -> fault) (w : world) :
  exists w' new,
    ensure_directories faults w = (Return tt, w') /\
    journal w' = (journal w ++ new)%list /\
    requests new = attempted faults directories /\
    List.filter is_log_line new
    = [match first_error faults directories with
       | Some e => Warning (Error_creating_directories (FromLibrary e))
       | None => Debug Directory_structure_initialized
       end] /\
    last new = head (List.filter is_log_line new) /\
    Package.initialize faults w
    = (Return tt, noted (Debug QuackTokenScope_initialized) w').
Proof.
  unfold Package.initialize. unfold then_P at 1.
  rewrite ensure_directories_create_each. unfold attempt, then_P.
  destruct (create_each_spec faults directories w) as (new & S & R & G & O).
  remember (first_error faults directories) as fe eqn:Hfe.
  remember (attempted faults directories) as att eqn:Hatt.
  destruct (create_each faults directories w) as [o w1].
  cbn [fst snd] in S, O. subst o w1.
  assert (forall l, is_log_line l = true -> requests (new ++ [l]) = requests new) as Rl.
  { intros l Hl. clear -Hl. induction new as [|[] new IH]; cbn; try rewrite IH; auto.
    destruct l; [discriminate | reflexivity | reflexivity]. }
  destruct fe as [e|]; cbn.
  all: eexists _, (new ++ [_])%list; split; [reflexivity|]; cbn;
    rewrite app_assoc; split; [reflexivity|].
  all: rewrite Rl by reflexivity; rewrite List.filter_app, G, last_snoc; cbn; auto.
Qed.

(** What [ensure_directories] leaves in the store. *)
Lemma ensure_directories_store (faults : string -> fault) (w : world) :
  store (snd (ensure_directories faults w))
  = foldl (made faults) (store w) (attempted faults directories).
Proof.
  rewrite ensure_directories_create_each. unfold attempt, then_P.
  destruct (create_each_spec faults directories w) as (new & S & _ & _ & O).
  remember (first_error faults directories) as fe eqn:Hfe.
  remember (attempted faults directories) as att eqn:Hatt.
  destruct (create_each faults directories w) as [o w1].
  cbn [fst snd] in S, O. subst o w1.
  destruct fe; reflexivity.
Qed.

Lemma made_keeps (faults : string -> fault) (fs : gmap string node) (p q : string) :
  is_Some (fs !! q) -> made faults fs p !! q = fs !! q.
Proof.
  intros [n Hn]. unfold made.
  destruct (faults p); try reflexivity.
  destruct (fs !! p) eqn:L; [reflexivity|].
  apply lookup_insert_ne. congruence.
Qed.

Lemma made_elsewhere (faults : string -> fault) (fs : gmap string node) (p q : string) :
  p <> q -> made faults fs p !! q = fs !! q.
Proof.
  intros N. unfold made.
  destruct (faults p); try reflexivity.
  destruct (fs !! p); [reflexivity|]. now apply lookup_insert_ne.
Qed.

Lemma foldl_made_keeps (faults : string -> fault) (l : list string)
    (fs : gmap string node) (q : string) :
  is_Some (fs !! q) -> foldl (made faults) fs l !! q = fs !! q.
Proof.
  revert fs. induction l as [|p l IH]; intros fs H; [reflexivity|].
  cbn. rewrite IH; [now apply made_keeps|].
  rewrite made_keeps; auto.
Qed.

Lemma foldl_made_elsewhere (faults : string -> fault) (l : list string)
    (fs : gmap string node) (q : string) :
  ~ In q l -> foldl (made faults) fs l !! q = fs !! q.
Proof.
  revert fs. induction l as [|p l IH]; intros fs H; [reflexivity|].
  cbn. rewrite IH; [|intros ?; apply H; now right].
  apply made_elsewhere. intros ->. apply H. now left.
Qed.

Lemma foldl_made_makes (faults : string -> fault) (l : list string)
    (fs : gmap string node) (p : string) :
  In p l -> faults p = NoFault ->
  foldl (made faults) fs l !! p
  = match fs !! p with Some n => Some n | None => Some Directory end.
Proof.
  revert fs. induction l as [|a l IH]; intros fs Hin F; [contradiction|].
  cbn. destruct (decide (a = p)) as [->|N].
  - assert (made faults fs p !! p
            = match fs !! p with Some n => Some n | None => Some Directory end) as M.
    { unfold made. rewrite F. destruct (fs !! p) eqn:L; [exact L|].
      apply lookup_insert_eq. }
    rewrite foldl_made_keeps; [exact M|].
    rewrite M. destruct (fs !! p); eauto.
  - destruct Hin as [->|Hin]; [congruence|].
    rewrite IH by assumption. now rewrite made_elsewhere.
Qed.

Lemma foldl_made_idle (faults : string -> fault) (l : list string)
    (fs : gmap string node) :
  (forall p, In p l -> faults p = NoFault -> is_Some (fs !! p)) ->
  foldl (made faults) fs l = fs.
Proof.
  revert fs. induction l as [|a l IH]; intros fs H; [reflexivity|].
  cbn.
  assert (made faults fs a = fs) as ->.
  { unfold made. destruct (faults a) eqn:F; try reflexivity.
    destruct (H a (or_introl eq_refl) F) as [n ->]. reflexivity. }
  apply IH. intros p Hp. apply H. now right.
Qed.

Lemma attempted_all (faults : string -> fault) (paths : list string) :
  (forall p, In p paths -> faults p = NoFault) -> attempted faults paths = paths.
Proof.
  induction paths as [|p paths IH]; intros H; [reflexivity|].
  cbn. unfold raising. rewrite (H p (or_introl eq_refl)).
  rewrite IH; [reflexivity|]. intros q Hq. apply H. now right.
Qed.

(** X14. With a file store that has no fault for the four directories,
    after [ensure_directories] each of them is in the store: as a directory
    if nothing was there, and as what was there otherwise (a regular file in
    the way stays).  Every other path holds what it held before. *)
Theorem ensure_directories_makes_the_directories (faults : string -> fault) (w : world) :
  (forall p, In p directories -> faults p = NoFault) ->
  (forall p, In p directories ->
             store (snd (ensure_directories faults w)) !! p
             = match store w !! p with
               | Some n => Some n
               | None => Some Directory
               end) /\
  (forall q, ~ In q directories ->
             store (snd (ensure_directories faults w)) !! q = store w !! q).
Proof.
  intros H. rewrite ensure_directories_store, attempted_all by exact H.
  split.
  - intros p Hp. apply foldl_made_makes; auto.
  - intros q Hq. now apply foldl_made_elsewhere.
Qed.

Lemma attempted_subset (faults : string -> fault) (paths : list string) (p : string) :
  In p (attempted faults paths) -> In p paths.
Proof.
  induction paths as [|a paths IH]; cbn; [auto|].
  destruct (raising faults a); cbn; intuition.
Qed.

(** X15. Running [ensure_directories] a second time, with the file store
    answering as the first time, changes nothing in the store: whatever the
    faults, what the first run left is what the second leaves. *)
Theorem ensure_directories_again (faults : string -> fault) (w : world) :
  store (snd (ensure_directories faults (snd (ensure_directories faults w))))
  = store (snd (ensure_directories faults w)).
Proof.
  rewrite (ensure_directories_store faults (snd (ensure_directories faults w))).
  rewrite ensure_directories_store.
  apply foldl_made_idle. intros p Hp F.
  rewrite foldl_made_makes by assumption.
  destruct (store w !! p); eauto.
Qed.
End PackageFacts.

(** * The further properties on the sample collaborators *)

Import MoreSamples.

Lemma initialized_instance_holds_a_tokenizer_witness :
  lifecycle (self (after nothing_installed (after online fresh))) true /\
  _initialized (self (after nothing_installed (after online fresh))) = true /\
  exists obj, _tokenizer (self (after nothing_installed (after online fresh))) = Some obj.
Proof.
  assert (lifecycle (self (after nothing_installed (after online fresh))) true) as L.
  { exact (initialize_called (self (after online fresh)) true nothing_installed
             (files (after online fresh)) (history (after online fresh)) false
             (after nothing_installed (after online fresh))
             (initialize_called __init__ false online ∅ [] true
                (after online fresh) constructed eq_refl)
             eq_refl). }
  split; [exact L|]. split; [reflexivity|].
  exact (initialized_instance_holds_a_tokenizer _ true L eq_refl).
Defined.

(** An instance initialized through the wrapper, on a file store whose model
    artifact the processor rejects. *)
Lemma failed_load_replaces_the_tokenizer_witness :
  In (Asked load Raised)
     (events_of corrupt
        {| self := self (after online fresh);
           files := files with_artifact; history := [] |}) /\
  fst (initialize corrupt
         {| self := self (after online fresh);
            files := files with_artifact; history := [] |}) = Return false /\
  _tokenizer (self (snd (initialize corrupt
                           {| self := self (after online fresh);
                              files := files with_artifact; history := [] |})))
  = Some (SentencePieceProcessor corrupt None) /\
  _initialized (self (snd (initialize corrupt
                             {| self := self (after online fresh);
                                files := files with_artifact; history := [] |})))
  = true.
Proof.
  assert (In (Asked load Raised)
            (events_of corrupt
               {| self := self (after online fresh);
                  files := files with_artifact; history := [] |})) as Hin.
  { vm_compute. tauto. }
  split; [exact Hin|].
  exact (failed_load_replaces_the_tokenizer corrupt _ Hin).
Defined.


(** The trainer refuses the corpus: no tokenizer, and the training file
    stays behind. *)
Lemma trainer_failure_fails_initialize_witness :
  In (Asked train Raised) (events_of untrainable fresh) /\
  fst (initialize untrainable fresh) = Return false /\
  _initialized (self (snd (initialize untrainable fresh))) = _initialized (self fresh) /\
  _tokenizer (self (snd (initialize untrainable fresh))) = _tokenizer (self fresh) /\
  ~ asked load (events_of untrainable fresh).
Proof.
  assert (In (Asked train Raised) (events_of untrainable fresh)) as Hin.
  { vm_compute. tauto. }
  split; [exact Hin|].
  exact (trainer_failure_fails_initialize untrainable fresh Hin).
Defined.

Lemma existing_artifact_is_loaded_witness :
  fst (initialize (healthy processor_with_encode) with_artifact) = Return true /\
  self (snd (initialize (healthy processor_with_encode) with_artifact))
  = {| _tokenizer := Some (processor_with_encode (Some "unigram-model"));
       _temp_dir := None;
       _initialized := true |} /\
  files (snd (initialize (healthy processor_with_encode) with_artifact))
    !! fs_join_path "./models" "sentencepiece.model"
  = Some (File "unigram-model") /\
  (forall r a, In (Asked r a) (events_of (healthy processor_with_encode) with_artifact) ->
               r <> create_temp_directory /\ r <> write_text /\ r <> train).
Proof.
  apply (existing_artifact_is_loaded (healthy processor_with_encode) with_artifact
           LibImportError "unigram-model"); try reflexivity.
  intros c. vm_compute. discriminate.
Defined.

Lemma direct_initialization_loads_the_artifact_witness :
  initialize (healthy processor_with_encode) fresh
  = (Return true, after (healthy processor_with_encode) fresh) /\
  exists m,
    files (after (healthy processor_with_encode) fresh)
      !! fs_join_path "./models" "sentencepiece.model" = Some (File m) /\
    _tokenizer (self (after (healthy processor_with_encode) fresh))
    = Some (SentencePieceProcessor (healthy processor_with_encode) (Some m)).
Proof.
  assert (initialize (healthy processor_with_encode) fresh
          = (Return true, after (healthy processor_with_encode) fresh)) as E
    by (vm_compute; reflexivity).
  split; [exact E|].
  exact (direct_initialization_loads_the_artifact _ _ _ LibImportError E eq_refl).
Defined.

Lemma training_file_is_left_behind_witness :
  In (Asked train Succeeded) (events_of (healthy processor_with_encode) fresh) /\
  files (snd (initialize (healthy processor_with_encode) fresh))
    !! "/tmp/quacktokenscope_spm_0/train.txt" = Some (File sample_text) /\
  _temp_dir (self (snd (initialize (healthy processor_with_encode) fresh)))
  = Some "/tmp/quacktokenscope_spm_0".
Proof.
  assert (In (Asked train Succeeded)
            (events_of (healthy processor_with_encode) fresh)) as Hin.
  { vm_compute. tauto. }
  split; [exact Hin|].
  exact (training_file_is_left_behind (healthy processor_with_encode) fresh
           Succeeded Hin).
Defined.

Lemma results_come_from_these_calls_witness :
  decode (self (after online fresh)) [104; 105] = Return "hi" /\
  exists dec,
    attr attr_decode (_tokenizer (self (after online fresh))) = Some dec /\
    dec [104; 105] (skip_special_tokens true) = Gives "hi".
Proof.
  assert (decode (self (after online fresh)) [104; 105] = Return "hi") as D
    by (vm_compute; reflexivity).
  split; [exact D|].
  exact (proj1 (proj2 (results_come_from_these_calls (self (after online fresh))))
           [104; 105] "hi" D).
Defined.

Lemma tokenize_wrapper_equal_length_witness :
  (forall conv l l',
      attr attr_convert_ids_to_tokens (_tokenizer (self (after online fresh)))
      = Some conv ->
      conv l = Gives l' -> length l' = length l) /\
  tokenize (self (after online fresh)) "hello"
  = Return ([104; 101; 108; 108; 111], ["h"; "e"; "l"; "l"; "o"]) /\
  length [104; 101; 108; 108; 111] = length ["h"; "e"; "l"; "l"; "o"].
Proof.
  assert (forall conv l l',
             attr attr_convert_ids_to_tokens (_tokenizer (self (after online fresh)))
             = Some conv ->
             conv l = Gives l' -> length l' = length l) as Hconv.
  { intros conv l l' Hc Hl. vm_compute in Hc. inversion Hc; subst conv.
    inversion Hl; subst l'. apply List.length_map. }
  assert (tokenize (self (after online fresh)) "hello"
          = Return ([104; 101; 108; 108; 111], ["h"; "e"; "l"; "l"; "o"])) as T
    by (vm_compute; reflexivity).
  split; [exact Hconv|]. split; [exact T|].
  exact (tokenize_wrapper_equal_length _ _ _ _ Hconv T).
Defined.

(** The command asked for a tokenizer the plugin does not have. *)
Lemma an_error_ends_the_command_witness :
  In (print_error (Tokenizer_not_found "bpe" ["tiktoken"]) 1)
     (fst (handle_calculate_cost_command cli "hello" "gpt-4-turbo" 0 "bpe" true true)) /\
  1 = 1 /\
  last (fst (handle_calculate_cost_command cli "hello" "gpt-4-turbo" 0 "bpe" true true))
  = Some (print_error (Tokenizer_not_found "bpe" ["tiktoken"]) 1) /\
  snd (handle_calculate_cost_command cli "hello" "gpt-4-turbo" 0 "bpe" true true)
  = (if print_error_returns cli then Returned else Exited 1) /\
  List.filter is_console_print
    (fst (handle_calculate_cost_command cli "hello" "gpt-4-turbo" 0 "bpe" true true))
  = [].
Proof.
  assert (In (print_error (Tokenizer_not_found "bpe" ["tiktoken"]) 1)
            (fst (handle_calculate_cost_command cli "hello" "gpt-4-turbo" 0 "bpe"
                    true true))) as Hin.
  { vm_compute. tauto. }
  split; [exact Hin|].
  exact (an_error_ends_the_command cli "hello" "gpt-4-turbo" 0 "bpe" true true _ 1 Hin).
Defined.

(** The text names a file: the note is printed, then the exception escapes. *)
Lemma command_escapes_on_a_direct_instance_witness :
  TokenScopePlugin cli_with_direct_instance = Return tt /\
  dict_get "tiktoken" (plugin__tokenizers cli_with_direct_instance)
  = Some (instance_of (self (after (healthy processor_without_encode) fresh))) /\
  (forall text,
      calculate_cost cli_with_direct_instance text "gpt-4-turbo" 0 "tiktoken"
        true true
      = ([], Escaped (AttributeError "encode"))) /\
  List.filter is_console_print
    (fst (handle_calculate_cost_command cli_with_direct_instance "notes.txt"
            "gpt-4-turbo" 0 "tiktoken" true true)) = [].
Proof.
  split; [reflexivity|]. split; [reflexivity|].
  apply (command_escapes_on_a_direct_instance cli_with_direct_instance
           (self (after (healthy processor_without_encode) fresh))
           {| success := true; path := ""; error := "" |}).
  - reflexivity.
  - reflexivity.
  - reflexivity.
  - reflexivity.
  - vm_compute. reflexivity.
  - vm_compute. reflexivity.
Defined.

(** With a file named by the input text, the run on the direct instance
    prints the note and then lets the exception escape. *)
Example note_then_escape :
  handle_calculate_cost_command cli_with_direct_instance "notes.txt"
    "gpt-4-turbo" 0 "tiktoken" true true
  = ([print_info (Read_input_from_file "notes.txt")],
     Escaped (AttributeError "encode")).
Proof. vm_compute. reflexivity. Qed.

(** A failure result for the logs directory is not noticed: the models
    directory is still asked for and the debug line is logged. *)
Example refused_directory_goes_unnoticed :
  Package.journal (snd (Package.ensure_directories logs_refused empty_world))
  = [Package.Requested "./output" Succeeded; Package.Requested "./temp" Succeeded;
     Package.Requested "./logs" Failed; Package.Requested "./models" Succeeded;
     Package.Debug Package.Directory_structure_initialized] /\
  Package.store (snd (Package.ensure_directories logs_refused empty_world)) !! "./logs"
  = None.
Proof. split; vm_compute; reflexivity. Qed.

(** A request that raises ends the sequence: the directories after it are
    not asked for. *)
Example raising_directory_ends_the_sequence :
  Package.journal (snd (Package.ensure_directories temp_raises empty_world))
  = [Package.Requested "./output" Succeeded; Package.Requested "./temp" Raised;
     Package.Warning (Package.Error_creating_directories
                        (FromLibrary (LibError "disk error")))] /\
  Package.store (snd (Package.ensure_directories temp_raises empty_world)) !! "./models"
  = None.
Proof. split; vm_compute; reflexivity. Qed.

Lemma ensure_directories_makes_the_directories_witness :
  (forall p, In p Package.directories -> working p = NoFault) /\
  Package.store (snd (Package.ensure_directories working empty_world)) !! "./models"
  = Some Directory /\
  Package.store (snd (Package.ensure_directories working empty_world)) !! "notes.txt"
  = None.
Proof.
  assert (forall p, In p Package.directories -> working p = NoFault) as H
    by (intros p _; reflexivity).
  split; [exact H|].
  destruct (ensure_directories_makes_the_directories working empty_world H)
    as [Hdirs Hrest].
  split.
  - exact (Hdirs "./models" (or_intror (or_intror (or_intror (or_introl eq_refl))))).
  - apply (Hrest "notes.txt"). cbn. intuition discriminate.
Defined.
